(** * Jogo de Matematica: question generator and session scoring

    A shallow embedding of [app.py]: the question generator
    [generate_question] and the three request handlers [start_game],
    [submit_answer] and [end_game], with the Flask session, the random
    source, the wall clock and the results table made explicit. *)

From Stdlib Require Import ZArith QArith Qround Lia Ascii String.
From stdpp Require Import base option list strings gmap pretty.

Local Open Scope string_scope.
Local Open Scope Z_scope.

(** ** Python values that reach the handlers *)

(** A Python [float]: the finite doubles are taken at their exact rational
    value; the two infinities and NaN are what [json.loads] builds from
    [1e999], [Infinity] and [NaN]. *)
Inductive pyfloat :=
| FFinite (q : Q)
| FInf (negative : bool)
| FNaN.

(** A JSON value as Python holds it: what [request.get_json()] returns, and
    what it holds under a key when that is an object. *)
#[warnings="-register-all"]
Inductive json :=
| JNull
| JBool (b : bool)
| JInt (n : Z)
| JFloat (f : pyfloat)
| JStr (s : string)
| JList (l : list json)
| JDict (kvs : list (string * json)).

(** The exceptions the modelled code can raise. *)
Inductive exn :=
| KeyError | TypeError | ValueError | OverflowError | IndexError
| AttributeError | ZeroDivisionError.

Inductive outcome (A : Type) :=
| Return (a : A)
| Raise (e : exn).
Arguments Return {A} a.
Arguments Raise {A} e.

(** ** Records of the program *)

Module Settings.
(** One entry of [DIFFICULTY_SETTINGS]. *)
Record t := mk { max_number : Z; operations : list string; time_limit : Z }.
End Settings.

(** The dict returned by [generate_question]. *)
Record Question := mkQuestion { question : string; answer : Z; time_limit : Z }.

Module Locals.
(** The local variables of [generate_question] when it reaches its
    [return]; [num1] and [num2] are unbound when no branch was taken. *)
Record t := mk {
  operation : string;
  num1 : option Z;
  num2 : option Z;
  question : string;
  answer : Z
}.
End Locals.

(** A float that [end_game] computes and stores: it is kept as the
    expression that computes it, so that nothing is said of the double the
    expression evaluates to. *)
Inductive stored_float :=
| IntZero
| Percent (correct total : Z)
| Seconds (microseconds : Z).

Module GameResult.
(** The columns of [models.GameResult] that [end_game] assigns; [id] and
    [created_at] are filled in by the database.  [accuracy] is the [0] of
    the conditional ([IntZero]) or [correct / total * 100] ([Percent]), and
    [duration] the [total_seconds()] of a difference in microseconds
    ([Seconds]). *)
Record t := mk {
  difficulty : json;
  score : Z;
  total_questions : Z;
  correct_answers : Z;
  accuracy : stored_float;
  duration : stored_float
}.
End GameResult.

(** The Flask [session]: a dict, every key of which may be absent.
    Timestamps are stored as ISO strings of [datetime.now()]; they are kept
    as the number of microseconds they denote. *)
Record Session := mkSession {
  game_active : option bool;
  difficulty : option json;
  score : option Z;
  total_questions : option Z;
  correct_answers : option Z;
  start_time : option Z;
  current_question : option Question;
  question_start_time : option Z
}.

Definition empty_session : Session :=
  mkSession None None None None None None None None.

(** Everything a request can read or change: the session, the raw draws
    still to come from [random], the readings still to come from
    [datetime.now()] (microseconds), and the rows of the results table. *)
Record World := mkWorld {
  session : Session;
  rng : nat -> Z;
  clock : nat -> Z;
  db : list GameResult.t
}.

(** ** State and exceptions

    A raised exception does not undo the assignments made before it. *)

Definition M (A : Type) : Type := World -> World * outcome A.

Definition ret {A} (a : A) : M A := fun w => (w, Return a).
Definition raise {A} (e : exn) : M A := fun w => (w, Raise e).
Definition bind {A B} (m : M A) (k : A -> M B) : M B :=
  fun w => match m w with
           | (w', Return a) => k a w'
           | (w', Raise e) => (w', Raise e)
           end.

Notation "'let*' x ':=' m 'in' k" := (bind m (fun x => k))
  (at level 20, x pattern, m at level 100, k at level 200).
Notation "'do*' m 'in' k" := (bind m (fun _ => k))
  (at level 20, m at level 100, k at level 200).

Definition modify_session (f : Session -> Session) : M unit :=
  fun w => (mkWorld (f (session w)) (rng w) (clock w) (db w), Return tt).

(** [session[key]]: [KeyError] when the key is absent. *)
Definition session_item {A} (field : Session -> option A) : M A :=
  fun w => match field (session w) with
           | Some v => (w, Return v)
           | None => (w, Raise KeyError)
           end.

(** [session.get(key)]. *)
Definition session_get {A} (field : Session -> option A) : M (option A) :=
  fun w => (w, Return (field (session w))).

Definition set_game_active (v : bool) (s : Session) : Session :=
  mkSession (Some v) (difficulty s) (score s) (total_questions s)
    (correct_answers s) (start_time s) (current_question s)
    (question_start_time s).
Definition set_difficulty (v : json) (s : Session) : Session :=
  mkSession (game_active s) (Some v) (score s) (total_questions s)
    (correct_answers s) (start_time s) (current_question s)
    (question_start_time s).
Definition set_score (v : Z) (s : Session) : Session :=
  mkSession (game_active s) (difficulty s) (Some v) (total_questions s)
    (correct_answers s) (start_time s) (current_question s)
    (question_start_time s).
Definition set_total_questions (v : Z) (s : Session) : Session :=
  mkSession (game_active s) (difficulty s) (score s) (Some v)
    (correct_answers s) (start_time s) (current_question s)
    (question_start_time s).
Definition set_correct_answers (v : Z) (s : Session) : Session :=
  mkSession (game_active s) (difficulty s) (score s) (total_questions s)
    (Some v) (start_time s) (current_question s) (question_start_time s).
Definition set_start_time (v : Z) (s : Session) : Session :=
  mkSession (game_active s) (difficulty s) (score s) (total_questions s)
    (correct_answers s) (Some v) (current_question s)
    (question_start_time s).
Definition set_current_question (v : Question) (s : Session) : Session :=
  mkSession (game_active s) (difficulty s) (score s) (total_questions s)
    (correct_answers s) (start_time s) (Some v) (question_start_time s).
Definition set_question_start_time (v : Z) (s : Session) : Session :=
  mkSession (game_active s) (difficulty s) (score s) (total_questions s)
    (correct_answers s) (start_time s) (current_question s) (Some v).

(** ** [random] and [datetime] *)

(** The next raw draw of the generator. *)
Definition draw : M Z :=
  fun w => (mkWorld (session w) (fun n => rng w (S n)) (clock w) (db w),
            Return (rng w 0%nat)).

(** [random.choice(seq)]: [IndexError] on an empty sequence. *)
Definition random_choice {A} (seq : list A) : M A :=
  match seq with
  | [] => raise IndexError
  | x :: _ =>
      let* r := draw in
      ret (nth (Z.to_nat (r mod Z.of_nat (length seq))) seq x)
  end.

(** [random.randint(a, b)]: a value of [a..b], [ValueError] on an empty
    range. *)
Definition randint (a b : Z) : M Z :=
  if b <? a then raise ValueError
  else let* r := draw in ret (a + r mod (b - a + 1)).

(** [datetime.now()], in microseconds. *)
Definition now : M Z :=
  fun w => (mkWorld (session w) (rng w) (fun n => clock w (S n)) (db w),
            Return (clock w 0%nat)).

(** [timedelta.total_seconds()] of a difference in microseconds. *)
Definition total_seconds (delta : Z) : Q := Qmake delta 1000000.

(** ** Game configuration *)

Definition DIFFICULTY_SETTINGS : gmap string Settings.t :=
  <["easy" := Settings.mk 10 ["+"; "-"] 30]>
  (<["medium" := Settings.mk 50 ["+"; "-"; "*"] 20]>
  (<["hard" := Settings.mk 100 ["+"; "-"; "*"; "/"] 15]> ∅)).

(** [DIFFICULTY_SETTINGS[difficulty]]: only a [str] can be one of the keys;
    a list or a dict is unhashable. *)
Definition settings_item (difficulty : json) : M Settings.t :=
  match difficulty with
  | JStr s =>
      match DIFFICULTY_SETTINGS !! s with
      | Some settings => ret settings
      | None => raise KeyError
      end
  | JList _ | JDict _ => raise TypeError
  | _ => raise KeyError
  end.

(** The multiplication and division signs of the question text, in UTF-8. *)
Definition times_sign : string := "×".
Definition division_sign : string := "÷".

(** ** [generate_question] *)

(** The body of [generate_question] after the settings are looked up, up to
    its [return] statement. *)
Definition generate_question_locals (settings : Settings.t) : M Locals.t :=
  let* operation := random_choice (Settings.operations settings) in
  if String.eqb operation "+" then
    let* num1 := randint 1 (Settings.max_number settings) in
    let* num2 := randint 1 (Settings.max_number settings) in
    ret (Locals.mk operation (Some num1) (Some num2)
           (pretty num1 +:+ " + " +:+ pretty num2) (num1 + num2))
  else if String.eqb operation "-" then
    let* num1 := randint 1 (Settings.max_number settings) in
    let* num2 := randint 1 num1 in
    ret (Locals.mk operation (Some num1) (Some num2)
           (pretty num1 +:+ " - " +:+ pretty num2) (num1 - num2))
  else if String.eqb operation "*" then
    let* num1 := randint 1 (Z.min (Settings.max_number settings / 5) 12) in
    let* num2 := randint 1 (Z.min (Settings.max_number settings / 5) 12) in
    ret (Locals.mk operation (Some num1) (Some num2)
           (pretty num1 +:+ " " +:+ times_sign +:+ " " +:+ pretty num2)
           (num1 * num2))
  else if String.eqb operation "/" then
    let* answer := randint 1 (Z.min (Settings.max_number settings / 5) 12) in
    let* num2 := randint 2 (Z.min (Settings.max_number settings / 10) 10) in
    let num1 := answer * num2 in
    ret (Locals.mk operation (Some num1) (Some num2)
           (pretty num1 +:+ " " +:+ division_sign +:+ " " +:+ pretty num2)
           answer)
  else
    ret (Locals.mk operation None None "" 0).

Definition generate_question (difficulty : json) : M Question :=
  let* settings := settings_item difficulty in
  let* locals := generate_question_locals settings in
  ret (mkQuestion (Locals.question locals) (Locals.answer locals)
         (Settings.time_limit settings)).

(** ** Responses *)

(** The JSON bodies the handlers return.  The two rounded floats of
    [final_stats] ([accuracy] and [duration]) are not represented. *)
Inductive Response :=
| Failure (error : string)
| Started (question : string) (time_limit : Z)
| Submitted (is_correct : bool) (correct_answer : Z) (score : Z)
    (next_question : string) (time_limit : Z)
    (total_questions : Z) (correct_answers : Z)
| Ended (score : Z) (total_questions : Z) (correct_answers : Z)
    (difficulty : json).

(** Truth value of [session.get('game_active')]. *)
Definition truthy (v : option bool) : bool := default false v.

(** ** [start_game] *)

Definition start_game (data : gmap string json) : M Response :=
  let difficulty := default (JStr "easy") (data !! "difficulty") in
  do* modify_session (set_game_active true) in
  do* modify_session (set_difficulty difficulty) in
  do* modify_session (set_score 0) in
  do* modify_session (set_total_questions 0) in
  do* modify_session (set_correct_answers 0) in
  let* t := now in
  do* modify_session (set_start_time t) in
  let* question_data := generate_question difficulty in
  do* modify_session (set_current_question question_data) in
  let* t := now in
  do* modify_session (set_question_start_time t) in
  ret (Started (question question_data) (time_limit question_data)).

(** ** [submit_answer] *)

(** [x < y] on exact values. *)
Definition Qlt_bool (x y : Q) : bool := negb (Qle_bool y x).

(** [int(x)] of a finite float: rounds toward zero. *)
Definition float_to_int (q : Q) : Z := Z.quot (Qnum q) (Z.pos (Qden q)).

Section Submit.

(** Python's [int(s)] on a [str]: [Some n] when [s] is read as the
    integer [n], [None] when [int] raises [ValueError]. *)
Variable int_of_str : string -> option Z.

(** [int(v)]. *)
Definition py_int (v : json) : outcome Z :=
  match v with
  | JNull => Raise TypeError
  | JBool b => Return (if b then 1 else 0)
  | JInt n => Return n
  | JFloat (FFinite q) => Return (float_to_int q)
  | JFloat (FInf _) => Raise OverflowError
  | JFloat FNaN => Raise ValueError
  | JStr s =>
      match int_of_str s with
      | Some n => Return n
      | None => Raise ValueError
      end
  | JList _ | JDict _ => Raise TypeError
  end.

(** [try: user_answer = int(user_answer)
     except (ValueError, TypeError): user_answer = None] *)
Definition coerce_answer (user_answer : json) : M (option Z) :=
  match py_int user_answer with
  | Return n => ret (Some n)
  | Raise ValueError | Raise TypeError => ret None
  | Raise e => raise e
  end.

(** [user_answer == correct_answer], [user_answer] an [int] or [None]. *)
Definition answer_eq (user_answer : option Z) (correct_answer : Z) : bool :=
  match user_answer with
  | Some n => n =? correct_answer
  | None => false
  end.

Definition submit_answer (data : gmap string json) : M Response :=
  let* active := session_get game_active in
  if negb (truthy active) then ret (Failure "Nenhum jogo ativo") else
  let user_answer := default JNull (data !! "answer") in
  let* current_question := session_get current_question in
  match current_question with
  | None => ret (Failure "Nenhuma pergunta atual")
  | Some current_question =>
      let* user_answer := coerce_answer user_answer in
      let correct_answer := answer current_question in
      let is_correct := answer_eq user_answer correct_answer in
      let* n := session_item total_questions in
      do* modify_session (set_total_questions (n + 1)) in
      do* (if is_correct then
             let* c := session_item correct_answers in
             do* modify_session (set_correct_answers (c + 1)) in
             let* s := session_item score in
             modify_session (set_score (s + 10))
           else ret tt) in
      let* question_start := session_item question_start_time in
      let* t := now in
      let time_taken := total_seconds (t - question_start) in
      do* (if is_correct
              && Qlt_bool time_taken (Qmake (time_limit current_question) 2)
           then
             let bonus_points :=
               Z.max 1 (float_to_int (10 - time_taken)%Q) in
             let* s := session_item score in
             modify_session (set_score (s + bonus_points))
           else ret tt) in
      let* d := session_item difficulty in
      let* next_question := generate_question d in
      do* modify_session (set_current_question next_question) in
      let* t := now in
      do* modify_session (set_question_start_time t) in
      let* s := session_item score in
      let* n := session_item total_questions in
      let* c := session_item correct_answers in
      ret (Submitted is_correct correct_answer s (question next_question)
             (time_limit next_question) n c)
  end.

End Submit.

(** ** [end_game] *)

(** [db.session.add(game_result); db.session.commit()], for a database
    that accepts the row.  A database that refuses it (a [difficulty] that is
    [None] under [nullable=False], a value it cannot bind) makes [commit]
    raise instead, before the session is touched again: that case is not
    represented. *)
Definition db_add (game_result : GameResult.t) : M unit :=
  fun w => (mkWorld (session w) (rng w) (clock w) (db w ++ [game_result]),
            Return tt).

(** [correct / total * 100]: the division raises on a divisor of 0. *)
Definition percent (correct total : Z) : M stored_float :=
  if total =? 0 then raise ZeroDivisionError
  else ret (Percent correct total).

Definition end_game : M Response :=
  let* active := session_get game_active in
  if negb (truthy active) then ret (Failure "Nenhum jogo ativo") else
  let* t := now in
  let* start := session_item start_time in
  let game_duration := Seconds (t - start) in
  let* n := session_item total_questions in
  let* accuracy :=
    (if 0 <? n then
       let* c := session_item correct_answers in
       let* n := session_item total_questions in
       percent c n
     else ret IntZero) in
  let* d := session_item difficulty in
  let* s := session_item score in
  let* n := session_item total_questions in
  let* c := session_item correct_answers in
  do* db_add (GameResult.mk d s n c accuracy game_duration) in
  let* s := session_item score in
  let* n := session_item total_questions in
  let* c := session_item correct_answers in
  let* d := session_item difficulty in
  do* modify_session (set_game_active false) in
  ret (Ended s n c d).

(** ** Request bodies *)

(** The dict on which the handlers call [data.get]: [request.get_json()]
    returns whatever JSON value the body holds, and only an object has a
    [get] method.  Of a repeated key the last value counts. *)
Definition body_fields (body : json) : outcome (gmap string json) :=
  match body with
  | JDict kvs => Return (list_to_map (reverse kvs))
  | _ => Raise AttributeError
  end.

(** [submit_answer] on the body as it arrives: the check of the active flag
    comes first, then [data.get('answer')]. *)
Definition submit_answer_request (int_of_str : string -> option Z)
    (body : json) : M Response :=
  let* active := session_get game_active in
  if negb (truthy active) then ret (Failure "Nenhum jogo ativo") else
  match body_fields body with
  | Return data => submit_answer int_of_str data
  | Raise e => raise e
  end.

(** A reader of plain decimal literals (an optional sign, then ASCII
    digits): the part of [int]'s grammar the examples below need. *)
Fixpoint digits_value (acc : Z) (s : string) : option Z :=
  match s with
  | EmptyString => Some acc
  | String c rest =>
      let d := Z.of_nat (Ascii.nat_of_ascii c) - 48 in
      if (0 <=? d) && (d <=? 9) then digits_value (10 * acc + d) rest
      else None
  end.

Definition decimal_literal (s : string) : option Z :=
  match s with
  | EmptyString => None
  | String "-"%char EmptyString | String "+"%char EmptyString => None
  | String "-"%char rest => Z.opp <$> digits_value 0 rest
  | String "+"%char rest => digits_value 0 rest
  | _ => digits_value 0 s
  end.

(** ** Sample worlds *)

(** A world with an empty session, the given raw draws and clock readings
    (zero after the listed ones) and an empty results table. *)
Definition sample_world (draws readings : list Z) : World :=
  mkWorld empty_session (fun n => nth n draws 0) (fun n => nth n readings 0) [].

(** The world after one raw draw was consumed. *)
Definition advance (w : World) : World :=
  mkWorld (session w) (fun n => rng w (S n)) (clock w) (db w).

(** ** Definitions used by the statements *)

(** What the local variables can be at the [return], branch by branch. *)
Inductive locals_shape (settings : Settings.t) : Locals.t -> Prop :=
| shape_add (num1 num2 : Z) :
    1 <= num1 <= Settings.max_number settings ->
    1 <= num2 <= Settings.max_number settings ->
    locals_shape settings
      (Locals.mk "+" (Some num1) (Some num2)
         (pretty num1 +:+ " + " +:+ pretty num2) (num1 + num2))
| shape_sub (num1 num2 : Z) :
    1 <= num1 <= Settings.max_number settings ->
    1 <= num2 <= num1 ->
    locals_shape settings
      (Locals.mk "-" (Some num1) (Some num2)
         (pretty num1 +:+ " - " +:+ pretty num2) (num1 - num2))
| shape_mul (num1 num2 : Z) :
    1 <= num1 <= Z.min (Settings.max_number settings / 5) 12 ->
    1 <= num2 <= Z.min (Settings.max_number settings / 5) 12 ->
    locals_shape settings
      (Locals.mk "*" (Some num1) (Some num2)
         (pretty num1 +:+ " " +:+ times_sign +:+ " " +:+ pretty num2)
         (num1 * num2))
| shape_div (answer num2 : Z) :
    1 <= answer <= Z.min (Settings.max_number settings / 5) 12 ->
    2 <= num2 <= Z.min (Settings.max_number settings / 10) 10 ->
    locals_shape settings
      (Locals.mk "/" (Some (answer * num2)) (Some num2)
         (pretty (answer * num2) +:+ " " +:+ division_sign +:+ " "
            +:+ pretty num2)
         answer)
| shape_none (operation : string) :
    ~ In operation ["+"; "-"; "*"; "/"] ->
    locals_shape settings (Locals.mk operation None None "" 0).

(** A computation that touches the random source only. *)
Definition rng_only {A} (m : M A) : Prop :=
  forall w : World,
    session (fst (m w)) = session w /\
    clock (fst (m w)) = clock w /\
    db (fst (m w)) = db w.

(** The points added on top of the 10 for a correct answer given after
    [time_taken] seconds: lines 158-160 of [submit_answer]. *)
Definition bonus_points (time_taken : Q) (time_limit : Z) : Z :=
  if Qlt_bool time_taken (Qmake time_limit 2)
  then Z.max 1 (float_to_int (10 - time_taken)%Q)
  else 0.

(** The session with its three counters replaced. *)
Definition with_counters (s : Session) (total correct points : Z) : Session :=
  mkSession (game_active s) (difficulty s) (Some points) (Some total)
    (Some correct) (start_time s) (current_question s)
    (question_start_time s).

(** The end of [submit_answer], from the generation of the next question
    on. *)
Definition next_question_step (is_correct : bool) (correct_answer : Z)
  : M Response :=
  let* d := session_item difficulty in
  let* next_question := generate_question d in
  do* modify_session (set_current_question next_question) in
  let* t := now in
  do* modify_session (set_question_start_time t) in
  let* s := session_item score in
  let* n := session_item total_questions in
  let* c := session_item correct_answers in
  ret (Submitted is_correct correct_answer s (question next_question)
         (time_limit next_question) n c).

(** The session as [start_game] leaves it before it generates the first
    question. *)
Definition fresh_session (d : json) (t : Z) (before : Session) : Session :=
  mkSession (Some true) (Some d) (Some 0) (Some 0) (Some 0) (Some t)
    (current_question before) (question_start_time before).

(** A game in progress: the world after [start_game] on an empty payload,
    with the draws that give the question "6 - 3"; the clock readings left
    are those after the two that [start_game] took (0 and 1000). *)
Definition sample_game (readings : list Z) : World :=
  fst (start_game ∅
         (sample_world [1; 5; 2; 0; 1; 1] (0 :: 1000 :: readings))).

(** The sample game with three clock readings left, its pending question,
    and a payload that answers it. *)
Definition sample_play : World := sample_game [14999999; 17000000; 19000000].
Definition sample_pending : Question := mkQuestion "6 - 3" 3 30.
Definition answer_3 : gmap string json := {["answer" := JStr "3"]}.

(** The specification's reading of an invalid difficulty, to be compared
    with the code: one condition with which [generate_question] fails on
    every argument that is not the name of a tier. *)
Definition spec_invalid_difficulty (condition : exn) : Prop :=
  forall (d : json) (w : World),
    ~ In d [JStr "easy"; JStr "medium"; JStr "hard"] ->
    generate_question d w = (w, Raise condition).

(** A computation that leaves the results table alone. *)
Definition keeps_db {A} (m : M A) : Prop :=
  forall w : World, db (fst (m w)) = db w.

(** The three routes that read or write the session. *)
Inductive Request :=
| POST_start_game (data : gmap string json)
| POST_submit_answer (data : gmap string json)
| POST_end_game.

Definition handle (int_of_str : string -> option Z) (req : Request)
  : M Response :=
  match req with
  | POST_start_game data => start_game data
  | POST_submit_answer data => submit_answer int_of_str data
  | POST_end_game => end_game
  end.

(** The worlds a player can be in: a first request finds an empty session;
    every request is handled to its end.  When a handler raises, the
    assignments it made to the session before are either kept or lost with
    the request: both are considered. *)
Inductive reachable (int_of_str : string -> option Z) : World -> Prop :=
| reachable_first (r cl : nat -> Z) (rows : list GameResult.t) :
    reachable int_of_str (mkWorld empty_session r cl rows)
| reachable_handled (w : World) (req : Request) :
    reachable int_of_str w ->
    reachable int_of_str (fst (handle int_of_str req w))
| reachable_lost (w : World) (req : Request) (e : exn) :
    reachable int_of_str w ->
    snd (handle int_of_str req w) = Raise e ->
    reachable int_of_str
      (mkWorld (session w) (rng (fst (handle int_of_str req w)))
         (clock (fst (handle int_of_str req w)))
         (db (fst (handle int_of_str req w)))).

(** A pending question and its start time come together, and the question
    is one the generator can return. *)
Inductive pending_ok : option Question -> option Z -> Prop :=
| pending_none : pending_ok None None
| pending_some (q : Question) (t : Z) :
    0 <= answer q -> In (time_limit q) [30; 20; 15] ->
    pending_ok (Some q) (Some t).

(** The sessions the handlers build: empty, or with every key of
    [start_game] in place and the counters consistent. *)
Inductive session_ok : Session -> Prop :=
| session_new : session_ok empty_session
| session_started (ga : bool) (d : json) (s n c t0 : Z)
    (cq : option Question) (qst : option Z) :
    0 <= c <= n -> 10 * c <= s -> pending_ok cq qst ->
    session_ok
      (mkSession (Some ga) (Some d) (Some s) (Some n) (Some c) (Some t0)
         cq qst).

(** The row that [end_game] writes. *)
Definition final_row (d : json) (s n c delta : Z) : GameResult.t :=
  GameResult.mk d s n c (if 0 <? n then Percent c n else IntZero)
    (Seconds delta).

(** * Properties *)

(** ** The monad *)

Lemma bind_Return {A B} (m : M A) (k : A -> M B) (w w' : World) (b : B) :
  bind m k w = (w', Return b) ->
  exists a w1, m w = (w1, Return a) /\ k a w1 = (w', Return b).
Proof.
  unfold bind. destruct (m w) as [w1 [a|e]]; [eauto | discriminate].
Qed.

Lemma bind_step {A B} (m : M A) (k : A -> M B) (w w1 : World) (a : A) :
  m w = (w1, Return a) -> bind m k w = k a w1.
Proof. intros H. unfold bind. now rewrite H. Qed.

Lemma bind_session_item {A B} (field : Session -> option A) (k : A -> M B)
    (w : World) (v : A) :
  field (session w) = Some v -> bind (session_item field) k w = k v w.
Proof. intros H. unfold bind, session_item. now rewrite H. Qed.

Lemma bind_session_item_None {A B} (field : Session -> option A)
    (k : A -> M B) (w : World) :
  field (session w) = None ->
  bind (session_item field) k w = (w, Raise KeyError).
Proof. intros H. unfold bind, session_item. now rewrite H. Qed.

(** ** The random source *)

Lemma randint_Return (a b : Z) (w w' : World) (v : Z) :
  randint a b w = (w', Return v) -> a <= v <= b /\ w' = advance w.
Proof.
  unfold randint. destruct (Z.ltb_spec b a) as [Hlt | Hle].
  - discriminate.
  - intros H. apply bind_Return in H as (r & w1 & Hd & Hr).
    unfold draw in Hd. injection Hd as <- <-.
    unfold ret in Hr. injection Hr as <- <-.
    split; [| reflexivity].
    pose proof (Z.mod_pos_bound (rng w 0%nat) (b - a + 1)). lia.
Qed.

Lemma randint_total (a b : Z) (w : World) :
  a <= b -> exists v, randint a b w = (advance w, Return v) /\ a <= v <= b.
Proof.
  intros Hab. unfold randint.
  destruct (Z.ltb_spec b a) as [Hlt | _]; [lia |].
  exists (a + rng w 0%nat mod (b - a + 1)). split; [reflexivity |].
  pose proof (Z.mod_pos_bound (rng w 0%nat) (b - a + 1)). lia.
Qed.

Lemma nth_mod_In {A} (l : list A) (d : A) (r : Z) :
  l <> [] -> In (nth (Z.to_nat (r mod Z.of_nat (length l))) l d) l.
Proof.
  intros Hl. apply nth_In.
  assert (0 < Z.of_nat (length l)) as Hpos
    by (destruct l; [congruence | cbn [length]; lia]).
  pose proof (Z.mod_pos_bound r _ Hpos). lia.
Qed.

Lemma random_choice_Return {A} (seq : list A) (w w' : World) (x : A) :
  random_choice seq w = (w', Return x) -> In x seq /\ w' = advance w.
Proof.
  destruct seq as [| y seq]; [discriminate |].
  intros H.
  pose proof (nth_mod_In (y :: seq) y (rng w 0%nat) ltac:(discriminate)) as Hin.
  change (random_choice (y :: seq) w)
    with (advance w,
          Return (nth (Z.to_nat (rng w 0%nat mod Z.of_nat (length (y :: seq))))
                    (y :: seq) y)) in H.
  assert (w' = advance w /\
          x = nth (Z.to_nat (rng w 0%nat mod Z.of_nat (length (y :: seq))))
                (y :: seq) y) as [-> ->] by (split; congruence).
  split; [exact Hin | reflexivity].
Qed.

Lemma random_choice_total {A} (seq : list A) (w : World) :
  seq <> [] ->
  exists x, random_choice seq w = (advance w, Return x) /\ In x seq.
Proof.
  destruct seq as [| y seq]; [congruence |]. intros _.
  destruct (random_choice (y :: seq) w) as [w' [x | e]] eqn:E.
  - destruct (random_choice_Return _ _ _ _ E) as [Hin ->]. eauto.
  - discriminate.
Qed.

(** ** The question generator *)

Lemma DIFFICULTY_SETTINGS_lookup (tier : string) (settings : Settings.t) :
  DIFFICULTY_SETTINGS !! tier = Some settings ->
  (tier = "easy" /\ settings = Settings.mk 10 ["+"; "-"] 30) \/
  (tier = "medium" /\ settings = Settings.mk 50 ["+"; "-"; "*"] 20) \/
  (tier = "hard" /\ settings = Settings.mk 100 ["+"; "-"; "*"; "/"] 15).
Proof.
  unfold DIFFICULTY_SETTINGS. rewrite !lookup_insert.
  repeat case_decide; rewrite ?lookup_empty; intros Hl;
    try discriminate; injection Hl as <-; subst; auto.
Qed.

Ltac invert_draws H :=
  repeat match type of H with
  | bind _ _ _ = (_, Return _) =>
      let v := fresh "v" in let w1 := fresh "w" in
      let Hv := fresh "Hv" in
      apply bind_Return in H as (v & w1 & Hv & H);
      apply randint_Return in Hv as [Hv ->]
  | ret _ _ = (_, Return _) => unfold ret in H; injection H as <- <-
  end.

Lemma generate_question_locals_shape (settings : Settings.t) (w w' : World)
    (locals : Locals.t) :
  generate_question_locals settings w = (w', Return locals) ->
  In (Locals.operation locals) (Settings.operations settings) /\
  locals_shape settings locals.
Proof.
  unfold generate_question_locals. intros H.
  apply bind_Return in H as (operation & w1 & Hop & H).
  apply random_choice_Return in Hop as [Hop ->].
  destruct (String.eqb_spec operation "+") as [-> | Hadd].
  { invert_draws H. split; [exact Hop | now apply shape_add]. }
  destruct (String.eqb_spec operation "-") as [-> | Hsub].
  { invert_draws H. split; [exact Hop | now apply shape_sub]. }
  destruct (String.eqb_spec operation "*") as [-> | Hmul].
  { invert_draws H. split; [exact Hop | now apply shape_mul]. }
  destruct (String.eqb_spec operation "/") as [-> | Hdiv].
  { invert_draws H. split; [exact Hop | now apply shape_div]. }
  invert_draws H. split; [exact Hop |].
  apply shape_none. cbn [In]. intuition congruence.
Qed.

Ltac eval_ranges :=
  repeat match goal with
  | |- context [Z.min ?a ?b] =>
      let v := eval vm_compute in (Z.min a b) in
      change (Z.min a b) with v
  end.

Ltac eval_ranges_in H :=
  repeat match type of H with
  | context [Z.min ?a ?b] =>
      let v := eval vm_compute in (Z.min a b) in
      change (Z.min a b) with v in H
  end.

Ltac run_randint :=
  match goal with
  | |- context [bind (randint ?a ?b) ?k ?w] =>
      let v := fresh "v" in let Hv := fresh "Hv" in let Hb := fresh "Hb" in
      destruct (randint_total a b w ltac:(lia)) as (v & Hv & Hb);
      rewrite (bind_step _ _ _ _ _ Hv)
  end.

(** On the three tiers every draw has a non-empty range, so the body runs
    to its [return], after three raw draws. *)
Lemma generate_question_locals_total (tier : string) (settings : Settings.t)
    (w : World) :
  DIFFICULTY_SETTINGS !! tier = Some settings ->
  exists locals,
    generate_question_locals settings w
    = (advance (advance (advance w)), Return locals).
Proof.
  intros Hs. unfold generate_question_locals.
  assert (Settings.operations settings <> []) as Hne
    by (apply DIFFICULTY_SETTINGS_lookup in Hs as [[_ ->] | [[_ ->] | [_ ->]]];
        discriminate).
  destruct (random_choice_total _ w Hne) as (operation & Hc & Hin).
  rewrite (bind_step _ _ _ _ _ Hc).
  apply DIFFICULTY_SETTINGS_lookup in Hs as [[_ ->] | [[_ ->] | [_ ->]]];
    cbn [Settings.operations Settings.max_number In] in *;
    intuition subst; cbn [String.eqb Ascii.eqb Bool.eqb];
    eval_ranges; do 2 run_randint; eexists; reflexivity.
Qed.

Lemma generate_question_tier (tier : string) (settings : Settings.t)
    (w w' : World) (locals : Locals.t) :
  DIFFICULTY_SETTINGS !! tier = Some settings ->
  generate_question_locals settings w = (w', Return locals) ->
  generate_question (JStr tier) w
  = (w', Return (mkQuestion (Locals.question locals) (Locals.answer locals)
                   (Settings.time_limit settings))).
Proof.
  intros Hs Hl. unfold generate_question, settings_item. rewrite Hs.
  unfold bind at 1. unfold ret at 1. now rewrite (bind_step _ _ _ _ _ Hl).
Qed.

Lemma generate_question_Return (d : json) (w w' : World) (q : Question) :
  generate_question d w = (w', Return q) ->
  exists tier settings locals,
    d = JStr tier /\
    DIFFICULTY_SETTINGS !! tier = Some settings /\
    generate_question_locals settings w = (w', Return locals) /\
    q = mkQuestion (Locals.question locals) (Locals.answer locals)
          (Settings.time_limit settings).
Proof.
  unfold generate_question. intros H.
  apply bind_Return in H as (settings & w1 & Hs & H).
  apply bind_Return in H as (locals & w2 & Hl & H).
  unfold ret in H. injection H as <- <-.
  destruct d; try discriminate Hs. cbn [settings_item] in Hs.
  destruct (DIFFICULTY_SETTINGS !! s) as [st |] eqn:E; [| discriminate Hs].
  unfold ret in Hs. injection Hs as <- <-.
  exists s, st, locals. auto.
Qed.

(** The division sign occurs in the operator list of the hard tier only. *)
Lemma division_only_hard (tier : string) (settings : Settings.t) :
  DIFFICULTY_SETTINGS !! tier = Some settings ->
  In "/" (Settings.operations settings) -> tier = "hard".
Proof.
  intros Hs Hin.
  apply DIFFICULTY_SETTINGS_lookup in Hs as [[_ ->] | [[_ ->] | [-> _]]];
    cbn in Hin; intuition discriminate.
Qed.

(** C1. Division questions are generated at the hard tier only, and from the
    quotient: the answer is drawn from [1, min(max_number // 5, 12)], the
    divisor from [2, min(max_number // 10, 10)], and the dividend is their
    product, so dividing it by the divisor leaves no remainder and gives
    back the answer. *)
Theorem division_question_exact (tier : string) (settings : Settings.t)
    (w w' : World) (locals : Locals.t) :
  DIFFICULTY_SETTINGS !! tier = Some settings ->
  generate_question_locals settings w = (w', Return locals) ->
  Locals.operation locals = "/" ->
  tier = "hard" /\
  generate_question (JStr tier) w
  = (w', Return (mkQuestion (Locals.question locals) (Locals.answer locals)
                   (Settings.time_limit settings))) /\
  exists num1 num2 : Z,
    Locals.num1 locals = Some num1 /\
    Locals.num2 locals = Some num2 /\
    Locals.question locals
    = pretty num1 +:+ " " +:+ division_sign +:+ " " +:+ pretty num2 /\
    num1 = Locals.answer locals * num2 /\
    1 <= Locals.answer locals <= Z.min (Settings.max_number settings / 5) 12 /\
    2 <= num2 <= Z.min (Settings.max_number settings / 10) 10 /\
    num1 mod num2 = 0 /\
    num1 / num2 = Locals.answer locals.
Proof.
  intros Hs Hl Hop.
  destruct (generate_question_locals_shape _ _ _ _ Hl) as [Hin Hshape].
  split; [| split].
  - rewrite Hop in Hin. exact (division_only_hard _ _ Hs Hin).
  - exact (generate_question_tier _ _ _ _ _ Hs Hl).
  - destruct Hshape as [a b ? ? | a b ? ? | a b ? ? | a b Ha Hb | op Hno];
      cbn [Locals.operation] in Hop; try discriminate Hop.
    + exists (a * b), b.
      cbn [Locals.num1 Locals.num2 Locals.question Locals.answer].
      repeat split; try tauto.
      * apply Z.mod_mul. lia.
      * apply Z.div_mul. lia.
    + subst op. exfalso. apply Hno. cbn. tauto.
Qed.

Lemma division_question_exact_witness :
  let w := sample_world [3; 11; 8] [] in
  let locals := Locals.mk "/" (Some 120) (Some 10) "120 ÷ 10" 12 in
  generate_question_locals (Settings.mk 100 ["+"; "-"; "*"; "/"] 15) w
  = (advance (advance (advance w)), Return locals) /\
  generate_question (JStr "hard") w
  = (advance (advance (advance w)), Return (mkQuestion "120 ÷ 10" 12 15)).
Proof.
  intros w locals. split; [reflexivity |].
  apply (division_question_exact "hard"
           (Settings.mk 100 ["+"; "-"; "*"; "/"] 15) w
           (advance (advance (advance w))) locals);
    reflexivity.
Defined.

(** C2. Whatever the argument and the draws, a question returned by
    [generate_question] has a non-negative answer; it comes from one of the
    three tiers, and when the operation drawn is a subtraction the second
    operand is at most the first, the answer being their difference. *)
Theorem answer_nonnegative (d : json) (w w' : World) (q : Question) :
  generate_question d w = (w', Return q) ->
  0 <= answer q /\
  exists tier settings locals,
    d = JStr tier /\
    DIFFICULTY_SETTINGS !! tier = Some settings /\
    generate_question_locals settings w = (w', Return locals) /\
    answer q = Locals.answer locals /\
    (Locals.operation locals = "-" ->
     exists num1 num2 : Z,
       Locals.num1 locals = Some num1 /\
       Locals.num2 locals = Some num2 /\
       num2 <= num1 /\
       answer q = num1 - num2).
Proof.
  intros H.
  apply generate_question_Return in H
    as (tier & settings & locals & -> & Hs & Hl & ->).
  destruct (generate_question_locals_shape _ _ _ _ Hl) as [_ Hshape].
  cbn [answer].
  split.
  - destruct Hshape; cbn [Locals.answer]; nia.
  - exists tier, settings, locals. repeat split; try assumption.
    intros Hop.
    destruct Hshape as [a b ? ? | a b ? ? | a b ? ? | a b ? ? | op Hno];
      cbn [Locals.operation] in Hop; try discriminate Hop.
    + exists a, b. cbn. repeat split. lia.
    + subst op. exfalso. apply Hno. cbn. tauto.
Qed.

Lemma answer_nonnegative_witness :
  let w := sample_world [1; 5; 2] [] in
  generate_question (JStr "easy") w
  = (advance (advance (advance w)), Return (mkQuestion "6 - 3" 3 30)) /\
  0 <= 3.
Proof.
  intros w. split; [reflexivity |].
  exact (proj1 (answer_nonnegative (JStr "easy") w
                  (advance (advance (advance w)))
                  (mkQuestion "6 - 3" 3 30) eq_refl)).
Defined.

(** C3, as the specification has it, fails: at the hard tier the draws
    that pick a division with answer 12 and divisor 10 give the question
    "120 ÷ 10", whose dividend is above the tier's [max_number] of 100. *)
Lemma operand_bound_counterexample :
  let w := sample_world [3; 11; 8] [] in
  exists settings w' locals,
    DIFFICULTY_SETTINGS !! "hard" = Some settings /\
    generate_question_locals settings w = (w', Return locals) /\
    generate_question (JStr "hard") w
    = (w', Return (mkQuestion "120 ÷ 10" 12 15)) /\
    Locals.num1 locals = Some 120 /\
    ~ 120 <= Settings.max_number settings.
Proof.
  intros w.
  exists (Settings.mk 100 ["+"; "-"; "*"; "/"] 15),
         (advance (advance (advance w))),
         (Locals.mk "/" (Some 120) (Some 10) "120 ÷ 10" 12).
  repeat split; try reflexivity. cbn. lia.
Qed.

(** C3, amended. On the three tiers every operand that is drawn (both
    operands of an addition, a subtraction and a multiplication, and the
    divisor of a division) is at least 1 and at most the tier's
    [max_number]; the dividend of a division is the product of the answer
    and the divisor, at most min(max_number // 5, 12) times
    min(max_number // 10, 10), which is 120 at the hard tier. *)
Theorem operand_bounds (tier : string) (settings : Settings.t)
    (w w' : World) (locals : Locals.t) :
  DIFFICULTY_SETTINGS !! tier = Some settings ->
  generate_question_locals settings w = (w', Return locals) ->
  exists num1 num2 : Z,
    Locals.num1 locals = Some num1 /\
    Locals.num2 locals = Some num2 /\
    1 <= num2 <= Settings.max_number settings /\
    (Locals.operation locals <> "/" ->
     1 <= num1 <= Settings.max_number settings) /\
    (Locals.operation locals = "/" ->
     num1 = Locals.answer locals * num2 /\
     2 <= num1 <= Z.min (Settings.max_number settings / 5) 12
                  * Z.min (Settings.max_number settings / 10) 10 /\
     num1 <= 120).
Proof.
  intros Hs Hl.
  destruct (generate_question_locals_shape _ _ _ _ Hl) as [Hin Hshape].
  assert (In (Locals.operation locals) ["+"; "-"; "*"; "/"]) as Hops.
  { apply DIFFICULTY_SETTINGS_lookup in Hs as [[_ ->] | [[_ ->] | [_ ->]]];
      cbn in Hin |- *; tauto. }
  assert (Locals.operation locals = "/" -> tier = "hard") as Hhard.
  { intros E. rewrite E in Hin. exact (division_only_hard _ _ Hs Hin). }
  destruct Hshape as [a b Ha Hb | a b Ha Hb | a b Ha Hb | a b Ha Hb | op Hno];
    cbn [Locals.operation Locals.num1 Locals.num2 Locals.answer] in *;
    [exists a, b | exists a, b | exists a, b | exists (a * b), b
    | contradiction];
    (split; [reflexivity |]); (split; [reflexivity |]).
  - split; [lia |]. split; [intros _; lia | intros E; discriminate E].
  - split; [lia |]. split; [intros _; lia | intros E; discriminate E].
  - apply DIFFICULTY_SETTINGS_lookup in Hs as [[_ ->] | [[_ ->] | [_ ->]]];
      cbn [Settings.max_number] in *; eval_ranges_in Ha; eval_ranges_in Hb;
      (split; [lia |]); (split; [intros _; lia | intros E; discriminate E]).
  - apply DIFFICULTY_SETTINGS_lookup in Hs as [[-> _] | [[-> _] | [_ ->]]];
      try (specialize (Hhard eq_refl); discriminate Hhard).
    cbn [Settings.max_number] in *. eval_ranges. eval_ranges_in Ha.
    eval_ranges_in Hb.
    split; [lia |]. split; [intros E; now contradict E |].
    intros _. split; [reflexivity | nia].
Qed.

Lemma operand_bounds_witness :
  let w := sample_world [3; 11; 8] [] in
  exists num1 num2 : Z,
    Some 120 = Some num1 /\ Some 10 = Some num2 /\
    1 <= num2 <= 100 /\ num1 = 12 * num2 /\ num1 <= 120.
Proof.
  intros w.
  destruct (operand_bounds "hard" (Settings.mk 100 ["+"; "-"; "*"; "/"] 15) w
              (advance (advance (advance w)))
              (Locals.mk "/" (Some 120) (Some 10) "120 ÷ 10" 12)
              eq_refl eq_refl)
    as (num1 & num2 & H1 & H2 & Hb2 & _ & Hdiv).
  destruct (Hdiv eq_refl) as (Hprod & _ & Hle).
  exists num1, num2. cbn in *. auto.
Defined.

(** C7, as the specification has it, fails: the code has no condition of
    its own for an unrecognised difficulty.  The string "expert" raises
    [KeyError], the exception that any missing key raises (a missing session
    key as well), and a list raises [TypeError]; so no one exception stands
    for an invalid difficulty, and [start_game] lets it through instead of
    returning a failure body. *)
Lemma invalid_difficulty_counterexample :
  let w := sample_world [] [] in
  generate_question (JStr "expert") w = (w, Raise KeyError) /\
  generate_question (JList []) w = (w, Raise TypeError) /\
  session_item score w = (w, Raise KeyError) /\
  (~ exists condition : exn, spec_invalid_difficulty condition) /\
  (forall msg : string,
     snd (start_game {["difficulty" := JStr "expert"]} w)
     <> Return (Failure msg)).
Proof.
  intros w. split; [reflexivity |]. split; [reflexivity |].
  split; [reflexivity |]. split.
  - intros [condition H].
    pose proof (H (JStr "expert") w) as H1.
    pose proof (H (JList []) w) as H2.
    assert (generate_question (JStr "expert") w = (w, Raise condition)) as E1.
    { apply H1. cbn. intros [E | [E | [E | []]]]; discriminate E. }
    assert (generate_question (JList []) w = (w, Raise condition)) as E2.
    { apply H2. cbn. intros [E | [E | [E | []]]]; discriminate E. }
    assert (generate_question (JStr "expert") w = (w, Raise KeyError)) as K
      by reflexivity.
    assert (generate_question (JList []) w = (w, Raise TypeError)) as T
      by reflexivity.
    congruence.
  - intros msg. discriminate.
Qed.

(** C7, amended. [generate_question] returns for each of the three tier
    names, whatever the draws are: it runs one of the four branches on
    three raw draws and returns the question of that branch with the
    tier's time limit.  For every other argument it fails on the lookup of
    the settings, before drawing or changing anything, with the exception
    of that lookup: [TypeError] for a list or an object, which cannot be
    hashed, and [KeyError] for anything else. *)
Theorem generate_question_total (d : json) (w : World) :
  (In d [JStr "easy"; JStr "medium"; JStr "hard"] ->
   exists tier settings locals,
     d = JStr tier /\
     DIFFICULTY_SETTINGS !! tier = Some settings /\
     generate_question_locals settings w
     = (advance (advance (advance w)), Return locals) /\
     locals_shape settings locals /\
     In (Locals.operation locals) (Settings.operations settings) /\
     generate_question d w
     = (advance (advance (advance w)),
        Return (mkQuestion (Locals.question locals) (Locals.answer locals)
                  (Settings.time_limit settings)))) /\
  (~ In d [JStr "easy"; JStr "medium"; JStr "hard"] ->
   generate_question d w
   = (w, Raise match d with
               | JList _ | JDict _ => TypeError
               | _ => KeyError
               end)).
Proof.
  split.
  - intros Hin.
    assert (exists tier settings,
              d = JStr tier /\ DIFFICULTY_SETTINGS !! tier = Some settings)
      as (tier & settings & -> & Hs).
    { cbn in Hin. destruct Hin as [<- | [<- | [<- | []]]];
        eexists _, _; (split; [reflexivity |]); reflexivity. }
    destruct (generate_question_locals_total tier settings w Hs) as [locals Hl].
    destruct (generate_question_locals_shape _ _ _ _ Hl) as [Hop Hshape].
    exists tier, settings, locals.
    repeat (split; [assumption || reflexivity |]).
    exact (generate_question_tier _ _ _ _ _ Hs Hl).
  - intros Hnot. unfold generate_question.
    destruct d; try reflexivity.
    cbn [settings_item].
    destruct (DIFFICULTY_SETTINGS !! s) as [settings |] eqn:E.
    + exfalso. apply Hnot.
      apply DIFFICULTY_SETTINGS_lookup in E as [[-> _] | [[-> _] | [-> _]]];
        cbn; tauto.
    + reflexivity.
Qed.

(** ** What the generator leaves alone *)

Create HintDb frame.

Lemma rng_only_ret {A} (a : A) : rng_only (ret a).
Proof. intros w. auto. Qed.

Lemma rng_only_raise {A} (e : exn) : rng_only (@raise A e).
Proof. intros w. auto. Qed.

Lemma rng_only_draw : rng_only draw.
Proof. intros w. auto. Qed.

Lemma rng_only_bind {A B} (m : M A) (k : A -> M B) :
  rng_only m -> (forall a, rng_only (k a)) -> rng_only (bind m k).
Proof.
  intros Hm Hk w. unfold bind.
  specialize (Hm w). destruct (m w) as [w1 [a | e]]; cbn [fst] in Hm.
  - destruct (Hk a w1) as (Hs & Hc & Hd).
    rewrite Hs, Hc, Hd. exact Hm.
  - exact Hm.
Qed.

#[local] Hint Resolve rng_only_ret rng_only_raise rng_only_draw : frame.
#[local] Hint Extern 2 (rng_only (bind _ _)) =>
  apply rng_only_bind; [| intros ?] : frame.
#[local] Hint Extern 3 (rng_only (if ?c then _ else _)) => destruct c : frame.

Lemma rng_only_randint (a b : Z) : rng_only (randint a b).
Proof. unfold randint. auto with frame. Qed.

Lemma rng_only_random_choice {A} (seq : list A) : rng_only (random_choice seq).
Proof. destruct seq; cbn [random_choice]; auto with frame. Qed.

Lemma rng_only_settings_item (d : json) : rng_only (settings_item d).
Proof.
  destruct d; cbn [settings_item]; auto with frame.
  destruct (DIFFICULTY_SETTINGS !! s); auto with frame.
Qed.

#[local] Hint Resolve rng_only_randint rng_only_random_choice
  rng_only_settings_item : frame.

Lemma rng_only_generate_question_locals (settings : Settings.t) :
  rng_only (generate_question_locals settings).
Proof. unfold generate_question_locals. auto 20 with frame. Qed.

#[local] Hint Resolve rng_only_generate_question_locals : frame.

Lemma rng_only_generate_question (d : json) : rng_only (generate_question d).
Proof. unfold generate_question. auto with frame. Qed.

(** ** Scoring *)

(** [max(1, int(x))] is [max(1, floor(x))]: truncation and floor differ on
    negative values only, where both are below 1. *)
Lemma max_1_float_to_int (x : Q) :
  Z.max 1 (float_to_int x) = Z.max 1 (Qfloor x).
Proof.
  destruct x as [num den]. unfold float_to_int, Qfloor. cbn [Qnum Qden].
  destruct (Z.le_gt_cases 0 num) as [Hpos | Hneg].
  - rewrite Z.quot_div_nonneg by lia. reflexivity.
  - assert (Z.quot num (Z.pos den) <= 0)
      by (apply Z.quot_le_upper_bound; lia || nia).
    assert (num / Z.pos den < 0) by (apply Z.div_lt_upper_bound; lia).
    lia.
Qed.

Lemma Qlt_bool_iff (x y : Q) : Qlt_bool x y = true <-> (x < y)%Q.
Proof.
  unfold Qlt_bool. rewrite negb_true_iff.
  split.
  - intros H. apply Qnot_le_lt. intros Hle.
    apply Qle_bool_iff in Hle. congruence.
  - intros H. destruct (Qle_bool y x) eqn:E; [| reflexivity].
    apply Qle_bool_iff in E. exfalso. exact (Qlt_not_le _ _ H E).
Qed.

Tactic Notation "run_handler" :=
  cbn -[coerce_answer generate_question Z.add Z.sub Z.mul Z.max float_to_int
        total_seconds Qlt_bool answer_eq Qmult Z.ltb Z.eqb Z.to_pos].
Tactic Notation "run_handler" "in" hyp(H) :=
  cbn -[coerce_answer generate_question Z.add Z.sub Z.mul Z.max float_to_int
        total_seconds Qlt_bool answer_eq Qmult Z.ltb Z.eqb Z.to_pos]
    in H.

(** Behind the guard [total_questions > 0] the divisor is not 0. *)
Lemma guarded_divisor (n : Z) : 0 < n -> (n =? 0) = false.
Proof. intros Hn. apply Z.eqb_neq. lia. Qed.

(** Runs the computation of the accuracy in [end_game] when the session
    holds [c] correct answers out of [n > 0]. *)
Ltac run_division c n :=
  unfold bind at 1;
  rewrite (bind_session_item correct_answers _ _ c) by reflexivity;
  rewrite (bind_session_item total_questions _ _ n) by reflexivity;
  unfold percent; rewrite (guarded_divisor n) by assumption.

Ltac run_division_in H c n :=
  unfold bind at 1 in H;
  rewrite (bind_session_item correct_answers _ _ c) in H by reflexivity;
  rewrite (bind_session_item total_questions _ _ n) in H by reflexivity;
  unfold percent in H; rewrite (guarded_divisor n) in H by assumption.

(** Generating the next question changes the pending question and its
    start time at most, whether it returns or raises. *)
Lemma next_question_step_session (is_correct : bool) (correct_answer : Z)
    (w : World) :
  session (fst (next_question_step is_correct correct_answer w)) = session w \/
  exists (q' : Question) (t : Z),
    session (fst (next_question_step is_correct correct_answer w))
    = set_question_start_time t (set_current_question q' (session w)).
Proof.
  remember (next_question_step is_correct correct_answer w) as res eqn:Hres.
  unfold next_question_step in Hres.
  destruct (difficulty (session w)) as [d |] eqn:Hd.
  - rewrite (bind_session_item difficulty _ _ d) in Hres by exact Hd.
    unfold bind at 1 in Hres.
    pose proof (rng_only_generate_question d w) as (Hs & _ & _).
    destruct (generate_question d w) as [[s2 r2 cl2 rows2] [q' | e]];
      cbn [fst session] in Hs; subst s2.
    + right. exists q', (cl2 0%nat). subst res.
      destruct (session w) as [ga df [sc |] [tq |] [ca |] st cq qst];
        reflexivity.
    + left. subst res. reflexivity.
  - rewrite bind_session_item_None in Hres by exact Hd. left. subst res.
    reflexivity.
Qed.

(** In particular it leaves the counters, the active flag and the
    difficulty as they are. *)
Lemma next_question_step_counters (is_correct : bool) (correct_answer : Z)
    (sess : Session) (n c s : Z) (r cl : nat -> Z) (rows : list GameResult.t) :
  let after :=
    session (fst (next_question_step is_correct correct_answer
                    (mkWorld (with_counters sess n c s) r cl rows))) in
  total_questions after = Some n /\
  correct_answers after = Some c /\
  score after = Some s /\
  game_active after = game_active sess /\
  difficulty after = difficulty sess.
Proof.
  intros after.
  destruct (next_question_step_session is_correct correct_answer
              (mkWorld (with_counters sess n c s) r cl rows))
    as [E | (q' & t & E)];
    subst after; rewrite E; cbn; auto.
Qed.

(** With the difficulty of one of the three tiers in the session, it
    returns the next question of that tier. *)
Lemma next_question_step_returns (is_correct : bool) (correct_answer : Z)
    (sess : Session) (n c s : Z) (r cl : nat -> Z) (rows : list GameResult.t)
    (tier : string) (settings : Settings.t) :
  difficulty sess = Some (JStr tier) ->
  DIFFICULTY_SETTINGS !! tier = Some settings ->
  exists (q' : Question) (w' : World),
    next_question_step is_correct correct_answer
      (mkWorld (with_counters sess n c s) r cl rows)
    = (w', Return (Submitted is_correct correct_answer s (question q')
                     (Settings.time_limit settings) n c)) /\
    time_limit q' = Settings.time_limit settings /\
    session w'
    = set_question_start_time (cl 0%nat)
        (set_current_question q' (with_counters sess n c s)).
Proof.
  intros Hd Hs. unfold next_question_step.
  rewrite (bind_session_item difficulty _ _ (JStr tier)) by exact Hd.
  set (w := mkWorld (with_counters sess n c s) r cl rows).
  destruct (generate_question_locals_total tier settings w Hs) as [locals Hl].
  pose proof (generate_question_tier _ _ _ _ _ Hs Hl) as Hq.
  rewrite (bind_step _ _ _ _ _ Hq). run_handler.
  exists (mkQuestion (Locals.question locals) (Locals.answer locals)
            (Settings.time_limit settings)).
  eexists. split; [reflexivity |]. split; reflexivity.
Qed.

Section SubmitProps.

Variable int_of_str : string -> option Z.

(** [submit_answer] on an active session with a pending question, once
    the answer is coerced: the counters are updated and the next question
    is generated. *)
Lemma submit_answer_scored (data : gmap string json) (w : World)
    (q : Question) (n c s t0 : Z) (ua : option Z) :
  game_active (session w) = Some true ->
  current_question (session w) = Some q ->
  total_questions (session w) = Some n ->
  correct_answers (session w) = Some c ->
  score (session w) = Some s ->
  question_start_time (session w) = Some t0 ->
  coerce_answer int_of_str (default JNull (data !! "answer")) w
  = (w, Return ua) ->
  let is_correct := answer_eq ua (answer q) in
  let time_taken := total_seconds (clock w 0%nat - t0) in
  submit_answer int_of_str data w
  = next_question_step is_correct (answer q)
      (mkWorld
         (with_counters (session w) (n + 1)
            (if is_correct then c + 1 else c)
            (if is_correct
             then s + 10 + bonus_points time_taken (time_limit q)
             else s))
         (rng w) (fun k => clock w (S k)) (db w)).
Proof.
  intros Hact Hq Hn Hc Hs Ht Hco is_correct time_taken.
  unfold submit_answer.
  destruct w as [[ga d sc tq ca st cq qst] r cl rows].
  cbn [session game_active current_question total_questions
       correct_answers score question_start_time clock] in *.
  subst. run_handler.
  rewrite (bind_step _ _ _ _ _ Hco).
  fold is_correct. unfold bonus_points. fold time_taken.
  destruct is_correct; run_handler; fold time_taken.
  - destruct (Qlt_bool time_taken (time_limit q # 2)); run_handler.
    + reflexivity.
    + now rewrite Z.add_0_r.
  - reflexivity.
Qed.

End SubmitProps.

Lemma answer_eq_true (ua : option Z) (correct_answer : Z) :
  answer_eq ua correct_answer = true <-> ua = Some correct_answer.
Proof.
  destruct ua as [n |]; cbn [answer_eq].
  - rewrite Z.eqb_eq. split; congruence.
  - split; discriminate.
Qed.

Lemma answer_eq_false (ua : option Z) (correct_answer : Z) :
  answer_eq ua correct_answer = false <-> ua <> Some correct_answer.
Proof.
  rewrite <- answer_eq_true. destruct (answer_eq ua correct_answer); split;
    congruence.
Qed.

Lemma bonus_points_before_half (time_taken : Q) (time_limit : Z) :
  (time_taken < Qmake time_limit 2)%Q ->
  bonus_points time_taken time_limit
  = Z.max 1 (Qfloor (10 - time_taken)%Q).
Proof.
  intros H. unfold bonus_points.
  apply Qlt_bool_iff in H. rewrite H. apply max_1_float_to_int.
Qed.

Lemma bonus_points_from_half (time_taken : Q) (time_limit : Z) :
  ~ (time_taken < Qmake time_limit 2)%Q ->
  bonus_points time_taken time_limit = 0.
Proof.
  intros H. unfold bonus_points.
  destruct (Qlt_bool time_taken (Qmake time_limit 2)) eqn:E; [| reflexivity].
  apply Qlt_bool_iff in E. contradiction.
Qed.

Lemma bonus_points_nonneg (time_taken : Q) (time_limit : Z) :
  0 <= bonus_points time_taken time_limit.
Proof.
  unfold bonus_points.
  destruct (Qlt_bool time_taken (Qmake time_limit 2)); lia.
Qed.

Ltac use_counters Hn Hc Hs :=
  match goal with
  | |- context [next_question_step ?b ?a
                  (mkWorld (with_counters ?x ?n ?c ?s) ?r ?cl ?rows)] =>
      destruct (next_question_step_counters b a x n c s r cl rows)
        as (Hn & Hc & Hs & _)
  end.

Section SubmitClaims.

Variable int_of_str : string -> option Z.

(** C4. A submission against an active session with a pending question,
    its counters in place and the answer coerced to [ua] (an integer, or
    [None] for the sentinel): [total_questions] grows by exactly 1; when
    [ua] is the answer of the pending question, [correct_answers] grows by
    exactly 1 and [score] by at least 10; otherwise both are unchanged. *)
Theorem submit_answer_counts (data : gmap string json) (w : World)
    (q : Question) (n c s t0 : Z) (ua : option Z) :
  game_active (session w) = Some true ->
  current_question (session w) = Some q ->
  total_questions (session w) = Some n ->
  correct_answers (session w) = Some c ->
  score (session w) = Some s ->
  question_start_time (session w) = Some t0 ->
  coerce_answer int_of_str (default JNull (data !! "answer")) w
  = (w, Return ua) ->
  let after := session (fst (submit_answer int_of_str data w)) in
  total_questions after = Some (n + 1) /\
  (ua = Some (answer q) ->
   correct_answers after = Some (c + 1) /\
   exists s', score after = Some s' /\ s + 10 <= s') /\
  (ua <> Some (answer q) ->
   correct_answers after = Some c /\ score after = Some s).
Proof.
  intros Hact Hq Hn Hc Hs Ht Hco after. subst after.
  rewrite (submit_answer_scored int_of_str data w q n c s t0 ua)
    by assumption.
  use_counters Hn' Hc' Hs'. rewrite Hn', Hc', Hs'.
  pose proof (bonus_points_nonneg
                (total_seconds (clock w 0%nat - t0)) (time_limit q)).
  split; [reflexivity | split]; intros Hua.
  - apply answer_eq_true in Hua. rewrite Hua.
    split; [reflexivity |]. eexists. split; [reflexivity | lia].
  - apply answer_eq_false in Hua. rewrite Hua. split; reflexivity.
Qed.

(** C5. On a correct submission the score grows by 10, plus
    max(1, floor(10 - elapsed)) exactly when the seconds elapsed since
    the pending question was issued are strictly below half its time
    limit; at exactly half the time limit nothing is added to the 10; on
    an incorrect submission the score does not change. *)
Theorem time_bonus_rule (data : gmap string json) (w : World)
    (q : Question) (n c s t0 : Z) (ua : option Z) :
  game_active (session w) = Some true ->
  current_question (session w) = Some q ->
  total_questions (session w) = Some n ->
  correct_answers (session w) = Some c ->
  score (session w) = Some s ->
  question_start_time (session w) = Some t0 ->
  coerce_answer int_of_str (default JNull (data !! "answer")) w
  = (w, Return ua) ->
  let elapsed := total_seconds (clock w 0%nat - t0) in
  let half := Qmake (time_limit q) 2 in
  let after := session (fst (submit_answer int_of_str data w)) in
  (ua = Some (answer q) ->
   ((elapsed < half)%Q ->
    score after = Some (s + 10 + Z.max 1 (Qfloor (10 - elapsed)%Q))) /\
   (~ (elapsed < half)%Q -> score after = Some (s + 10)) /\
   ((elapsed == half)%Q -> score after = Some (s + 10))) /\
  (ua <> Some (answer q) -> score after = Some s).
Proof.
  intros Hact Hq Hn Hc Hs Ht Hco elapsed half after. subst after.
  rewrite (submit_answer_scored int_of_str data w q n c s t0 ua)
    by assumption.
  use_counters Hn' Hc' Hs'. rewrite Hs'. fold elapsed.
  split; intros Hua.
  - apply answer_eq_true in Hua. rewrite Hua.
    assert (~ (elapsed < half)%Q ->
            Some (s + 10 + bonus_points elapsed (time_limit q))
            = Some (s + 10)) as Hlate.
    { intros Hge. rewrite (bonus_points_from_half _ _ Hge).
      now rewrite Z.add_0_r. }
    split; [| split].
    + intros Hlt. now rewrite (bonus_points_before_half _ _ Hlt).
    + exact Hlate.
    + intros Heq. apply Hlate. intros Hlt. rewrite Heq in Hlt.
      exact (Qlt_irrefl _ Hlt).
  - apply answer_eq_false in Hua. now rewrite Hua.
Qed.

(** The coercion of the submitted answer: an integer when [int] returns
    one, the sentinel [None] when [int] raises [ValueError] or
    [TypeError], and an exception that leaves the handler for an infinite
    float, on which [int] raises [OverflowError]. *)
Lemma coerce_answer_cases (raw : json) (w : World) :
  (exists n, py_int int_of_str raw = Return n /\
             coerce_answer int_of_str raw w = (w, Return (Some n))) \/
  ((py_int int_of_str raw = Raise ValueError \/
    py_int int_of_str raw = Raise TypeError) /\
   coerce_answer int_of_str raw w = (w, Return None)) \/
  (exists negative, raw = JFloat (FInf negative) /\
                    coerce_answer int_of_str raw w = (w, Raise OverflowError)).
Proof.
  unfold coerce_answer.
  destruct raw as [| b | n | [x | negative |] | str | l | kvs];
    cbn [py_int]; eauto 6.
  destruct (int_of_str str); eauto 6.
Qed.

(** Where [int] raises one of the two exceptions that are caught, the
    submission is scored as incorrect and the handler returns: the part
    of C6 that the code keeps. *)
Lemma unparseable_is_incorrect (data : gmap string json) (w : World)
    (q : Question) (n c s t0 : Z) (tier : string) (settings : Settings.t) :
  game_active (session w) = Some true ->
  current_question (session w) = Some q ->
  total_questions (session w) = Some n ->
  correct_answers (session w) = Some c ->
  score (session w) = Some s ->
  question_start_time (session w) = Some t0 ->
  difficulty (session w) = Some (JStr tier) ->
  DIFFICULTY_SETTINGS !! tier = Some settings ->
  py_int int_of_str (default JNull (data !! "answer")) = Raise ValueError \/
  py_int int_of_str (default JNull (data !! "answer")) = Raise TypeError ->
  exists (q' : Question) (w' : World),
    submit_answer int_of_str data w
    = (w', Return (Submitted false (answer q) s (question q')
                     (Settings.time_limit settings) (n + 1) c)).
Proof.
  intros Hact Hq Hn Hc Hs Ht Hd Hset Hraise.
  assert (coerce_answer int_of_str (default JNull (data !! "answer")) w
          = (w, Return None)) as Hco
    by (unfold coerce_answer; destruct Hraise as [-> | ->]; reflexivity).
  rewrite (submit_answer_scored int_of_str data w q n c s t0 None)
    by assumption.
  cbn [answer_eq].
  destruct (next_question_step_returns false (answer q)
              (with_counters (session w) (n + 1) c s) (n + 1) c s
              (rng w) (fun k => clock w (S k)) (db w) tier settings
              Hd Hset) as (q' & w' & Hret & _).
  exists q', w'. exact Hret.
Qed.

(** C6, the defect. A submission whose answer is an infinite float (the
    JSON number [1e999]) is not coerced to the sentinel: [int] raises
    [OverflowError], which the handler does not catch, so the request
    fails and nothing is counted. *)
Theorem submit_answer_infinity_raises (data : gmap string json) (w : World)
    (q : Question) (negative : bool) :
  game_active (session w) = Some true ->
  current_question (session w) = Some q ->
  data !! "answer" = Some (JFloat (FInf negative)) ->
  submit_answer int_of_str data w = (w, Raise OverflowError).
Proof.
  intros Hact Hq Hdata. unfold submit_answer.
  unfold bind at 1. cbn [session_get]. rewrite Hact.
  unfold bind at 1. cbn [session_get truthy default from_option negb id].
  rewrite Hq, Hdata. reflexivity.
Qed.

(** C8. On a session that is not active, [submit_answer] and [end_game]
    both return the failure body with the message "Nenhum jogo ativo"
    (they return it, they do not raise) and change nothing: the session,
    the random source, the clock and the results table are as before. *)
Theorem no_active_game (data : gmap string json) (w : World) :
  game_active (session w) <> Some true ->
  submit_answer int_of_str data w = (w, Return (Failure "Nenhum jogo ativo"))
  /\ end_game w = (w, Return (Failure "Nenhum jogo ativo")).
Proof.
  intros Hact.
  assert (truthy (game_active (session w)) = false) as Hf
    by (destruct (game_active (session w)) as [[|] |];
        [congruence | reflexivity | reflexivity]).
  split; [unfold submit_answer | unfold end_game];
    unfold bind at 1; cbn [session_get]; rewrite Hf; reflexivity.
Qed.

End SubmitClaims.

(** ** The life cycle *)

(** [start_game] overwrites the flag, the difficulty, the counters and the
    start time whatever the payload, also when the generation of the first
    question raises. *)
Lemma start_game_session (data : gmap string json) (w : World) :
  let fresh :=
    fresh_session (default (JStr "easy") (data !! "difficulty"))
      (clock w 0%nat) (session w) in
  session (fst (start_game data w)) = fresh \/
  exists q : Question,
    session (fst (start_game data w))
    = set_question_start_time (clock w 1%nat) (set_current_question q fresh).
Proof.
  intros fresh.
  remember (start_game data w) as res eqn:Hres.
  unfold start_game in Hres.
  set (d := default (JStr "easy") (data !! "difficulty")) in *.
  destruct w as [sess r cl rows].
  run_handler in Hres.
  match type of Hres with
  | context [bind (generate_question d) _ ?w1] =>
      pose proof (rng_only_generate_question d w1) as (Hs & Hc & _);
      unfold bind at 1 in Hres;
      destruct (generate_question d w1) as [[s2 r2 cl2 rows2] [q | e]]
  end; cbn [fst session clock] in Hs, Hc; subst s2 cl2; run_handler in Hres;
    subst res; [right; exists q | left]; reflexivity.
Qed.

(** C10. A payload without a [difficulty] key starts an easy game:
    [start_game] returns the first question with the easy time limit of 30,
    the session is active with difficulty "easy" and zeroed counters, and
    the request behaves as the same payload with [difficulty] set to
    "easy". *)
Theorem start_game_default_easy (data : gmap string json) (w : World) :
  data !! "difficulty" = None ->
  exists q : Question,
    start_game data w
    = (mkWorld
         (mkSession (Some true) (Some (JStr "easy")) (Some 0) (Some 0)
            (Some 0) (Some (clock w 0%nat)) (Some q) (Some (clock w 1%nat)))
         (fun k => rng w (S (S (S k)))) (fun k => clock w (S (S k))) (db w),
       Return (Started (question q) 30)) /\
    time_limit q = 30 /\
    start_game data w = start_game (<["difficulty" := JStr "easy"]> data) w.
Proof.
  intros Hd. unfold start_game. rewrite Hd, lookup_insert_eq.
  cbn [default from_option id].
  destruct w as [sess r cl rows]. run_handler.
  match goal with
  | |- context [bind (generate_question (JStr "easy")) _ ?w1] =>
      destruct (generate_question_locals_total "easy"
                  (Settings.mk 10 ["+"; "-"] 30) w1 eq_refl) as [locals Hl];
      pose proof (generate_question_tier "easy" _ _ _ _ eq_refl Hl) as Hq;
      rewrite (bind_step _ _ _ _ _ Hq)
  end.
  run_handler.
  exists (mkQuestion (Locals.question locals) (Locals.answer locals) 30).
  repeat split.
Qed.

Lemma start_game_default_easy_witness :
  exists q : Question,
    snd (start_game ∅ (sample_world [1; 5; 2] [0; 1000]))
    = Return (Started (question q) 30).
Proof.
  destruct (start_game_default_easy ∅ (sample_world [1; 5; 2] [0; 1000])
              (lookup_empty _)) as (q & Hrun & _).
  exists q. now rewrite Hrun.
Defined.

(** C9. [end_game] on an active session with its keys in place returns the
    final statistics, appends one row to the results table, and changes the
    session in the active flag only, which becomes false: difficulty,
    score, counters, start time, pending question and its start time read
    as before, until a later [start_game] sets the counters back to 0. *)
Theorem end_game_keeps_session (w : World) (s n c t0 : Z) (d : json) :
  game_active (session w) = Some true ->
  difficulty (session w) = Some d ->
  score (session w) = Some s ->
  total_questions (session w) = Some n ->
  correct_answers (session w) = Some c ->
  start_time (session w) = Some t0 ->
  exists row : GameResult.t,
    end_game w
    = (mkWorld (set_game_active false (session w)) (rng w)
         (fun k => clock w (S k)) (db w ++ [row]),
       Return (Ended s n c d)) /\
    (GameResult.difficulty row = d /\ GameResult.score row = s /\
     GameResult.total_questions row = n /\
     GameResult.correct_answers row = c) /\
    let after := session (fst (end_game w)) in
    game_active after = Some false /\
    difficulty after = difficulty (session w) /\
    score after = score (session w) /\
    total_questions after = total_questions (session w) /\
    correct_answers after = correct_answers (session w) /\
    start_time after = start_time (session w) /\
    current_question after = current_question (session w) /\
    question_start_time after = question_start_time (session w) /\
    forall data : gmap string json,
      let restarted := session (fst (start_game data (fst (end_game w)))) in
      game_active restarted = Some true /\
      score restarted = Some 0 /\
      total_questions restarted = Some 0 /\
      correct_answers restarted = Some 0.
Proof.
  intros Hact Hd Hs Hn Hc Ht.
  assert (exists row : GameResult.t,
            end_game w
            = (mkWorld (set_game_active false (session w)) (rng w)
                 (fun k => clock w (S k)) (db w ++ [row]),
               Return (Ended s n c d)) /\
            (GameResult.difficulty row = d /\ GameResult.score row = s /\
             GameResult.total_questions row = n /\
             GameResult.correct_answers row = c)) as (row & Hrun & Hrow).
  { unfold end_game.
    destruct w as [[ga df sc tq ca st cq qst] r cl rows].
    cbn [session game_active difficulty score total_questions correct_answers
         start_time] in *.
    subst. run_handler.
    destruct (Z.ltb_spec 0 n); run_handler; [run_division c n |];
      eexists; (split; [reflexivity |]); repeat split. }
  exists row. split; [exact Hrun |]. split; [exact Hrow |].
  rewrite Hrun. cbn [fst session].
  do 8 (split; [reflexivity |]).
  intros data.
  destruct (start_game_session data
              (mkWorld (set_game_active false (session w)) (rng w)
                 (fun k => clock w (S k)) (db w ++ [row])))
    as [E | [q E]]; rewrite E; repeat split.
Qed.

(** ** The claims on a sample game *)

Lemma submit_answer_counts_witness :
  current_question (session sample_play) = Some sample_pending /\
  total_questions
    (session (fst (submit_answer decimal_literal answer_3 sample_play)))
  = Some 1 /\
  correct_answers
    (session (fst (submit_answer decimal_literal answer_3 sample_play)))
  = Some 1.
Proof.
  split; [reflexivity |].
  destruct (submit_answer_counts decimal_literal answer_3 sample_play
              sample_pending 0 0 0 1000 (Some 3)
              eq_refl eq_refl eq_refl eq_refl eq_refl eq_refl eq_refl)
    as (Htotal & Hcorrect & _).
  split; [exact Htotal | exact (proj1 (Hcorrect eq_refl))].
Defined.

(** After 14.998999 seconds of the 30 allowed the bonus is the minimum of 1;
    after exactly 15 seconds there is none. *)
Lemma time_bonus_rule_witness :
  score (session (fst (submit_answer decimal_literal answer_3 sample_play)))
  = Some (0 + 10 + Z.max 1 (Qfloor (10 - total_seconds (14999999 - 1000))%Q))
  /\
  score (session (fst (submit_answer decimal_literal answer_3
                         (sample_game [15001000]))))
  = Some (0 + 10).
Proof.
  split.
  - exact (proj1 (proj1 (time_bonus_rule decimal_literal answer_3 sample_play
                           sample_pending 0 0 0 1000 (Some 3)
                           eq_refl eq_refl eq_refl eq_refl eq_refl eq_refl
                           eq_refl) eq_refl) eq_refl).
  - exact (proj2 (proj2 (proj1
             (time_bonus_rule decimal_literal answer_3
                (sample_game [15001000]) sample_pending 0 0 0 1000 (Some 3)
                eq_refl eq_refl eq_refl eq_refl eq_refl eq_refl eq_refl)
             eq_refl)) eq_refl).
Defined.

Lemma submit_answer_infinity_raises_witness :
  submit_answer decimal_literal {["answer" := JFloat (FInf false)]} sample_play
  = (sample_play, Raise OverflowError) /\
  total_questions (session sample_play) = Some 0.
Proof.
  split; [| reflexivity].
  exact (submit_answer_infinity_raises decimal_literal
           {["answer" := JFloat (FInf false)]} sample_play sample_pending false
           eq_refl eq_refl eq_refl).
Defined.

Lemma no_active_game_witness :
  submit_answer decimal_literal answer_3 (sample_world [] [])
  = (sample_world [] [], Return (Failure "Nenhum jogo ativo")) /\
  end_game (sample_world [] [])
  = (sample_world [] [], Return (Failure "Nenhum jogo ativo")).
Proof.
  apply (no_active_game decimal_literal answer_3 (sample_world [] [])).
  discriminate.
Defined.

Lemma end_game_keeps_session_witness :
  snd (end_game sample_play) = Return (Ended 0 0 0 (JStr "easy")) /\
  session (fst (end_game sample_play))
  = set_game_active false (session sample_play).
Proof.
  destruct (end_game_keeps_session sample_play 0 0 0 0 (JStr "easy")
              eq_refl eq_refl eq_refl eq_refl eq_refl eq_refl)
    as (row & Hrun & _).
  rewrite Hrun. split; reflexivity.
Defined.

(** * Further properties of the code *)

(** ** More on the generator *)

Lemma append_nonempty (a b : string) : b <> "" -> a +:+ b <> "".
Proof. destruct a; cbn; [tauto | discriminate]. Qed.

(** X1. An addition question, at any of the three tiers, has both operands
    drawn from [1, max_number] and their sum as its answer, which therefore
    lies between 2 and twice [max_number]. *)
Theorem addition_question (tier : string) (settings : Settings.t)
    (w w' : World) (locals : Locals.t) :
  DIFFICULTY_SETTINGS !! tier = Some settings ->
  generate_question_locals settings w = (w', Return locals) ->
  Locals.operation locals = "+" ->
  exists num1 num2 : Z,
    Locals.num1 locals = Some num1 /\
    Locals.num2 locals = Some num2 /\
    1 <= num1 <= Settings.max_number settings /\
    1 <= num2 <= Settings.max_number settings /\
    Locals.answer locals = num1 + num2 /\
    Locals.question locals = pretty num1 +:+ " + " +:+ pretty num2 /\
    2 <= Locals.answer locals <= 2 * Settings.max_number settings.
Proof.
  intros _ Hl Hop.
  destruct (generate_question_locals_shape _ _ _ _ Hl) as [_ Hshape].
  destruct Hshape as [a b Ha Hb | a b ? ? | a b ? ? | a b ? ? | op Hno];
    cbn [Locals.operation] in Hop; try discriminate Hop.
  - exists a, b. cbn. repeat split; lia.
  - subst op. exfalso. apply Hno. cbn. tauto.
Qed.

Lemma addition_question_witness :
  let w := sample_world [0; 6; 3] [] in
  exists num1 num2 : Z,
    Some 7 = Some num1 /\ Some 4 = Some num2 /\ 11 = num1 + num2.
Proof.
  intros w.
  destruct (addition_question "easy" (Settings.mk 10 ["+"; "-"] 30) w
              (advance (advance (advance w)))
              (Locals.mk "+" (Some 7) (Some 4) "7 + 4" 11)
              eq_refl eq_refl eq_refl)
    as (num1 & num2 & H1 & H2 & _ & _ & Hsum & _).
  exists num1, num2. cbn in *. auto.
Defined.

(** X2. A multiplication question is never generated at the easy tier; both
    its operands are drawn from [1, min(max_number // 5, 12)], so they are at
    most 12 (10 at the medium tier), and the answer is their product, at
    most 144. *)
Theorem multiplication_question (tier : string) (settings : Settings.t)
    (w w' : World) (locals : Locals.t) :
  DIFFICULTY_SETTINGS !! tier = Some settings ->
  generate_question_locals settings w = (w', Return locals) ->
  Locals.operation locals = "*" ->
  tier <> "easy" /\
  exists num1 num2 : Z,
    Locals.num1 locals = Some num1 /\
    Locals.num2 locals = Some num2 /\
    1 <= num1 <= Z.min (Settings.max_number settings / 5) 12 /\
    1 <= num2 <= Z.min (Settings.max_number settings / 5) 12 /\
    num1 <= 12 /\ num2 <= 12 /\
    (tier = "medium" -> num1 <= 10 /\ num2 <= 10) /\
    Locals.answer locals = num1 * num2 /\
    1 <= Locals.answer locals <= 144.
Proof.
  intros Hs Hl Hop.
  destruct (generate_question_locals_shape _ _ _ _ Hl) as [Hin Hshape].
  rewrite Hop in Hin.
  destruct Hshape as [a b ? ? | a b ? ? | a b Ha Hb | a b ? ? | op Hno];
    cbn [Locals.operation] in Hop; try discriminate Hop.
  - apply DIFFICULTY_SETTINGS_lookup in Hs as [[-> ->] | [[-> ->] | [-> ->]]];
      cbn [Settings.operations Settings.max_number] in *;
      eval_ranges; eval_ranges_in Ha; eval_ranges_in Hb.
    + exfalso. cbn in Hin. intuition discriminate.
    + split; [discriminate |]. exists a, b. cbn.
      repeat split; try lia; nia.
    + split; [discriminate |]. exists a, b. cbn.
      split; [reflexivity |]. split; [reflexivity |].
      split; [lia |]. split; [lia |]. split; [lia |]. split; [lia |].
      split; [discriminate |]. split; [reflexivity | nia].
  - subst op. exfalso. apply Hno. cbn. tauto.
Qed.

Lemma multiplication_question_witness :
  let w := sample_world [2; 11; 8] [] in
  "hard" <> "easy" /\
  generate_question_locals (Settings.mk 100 ["+"; "-"; "*"; "/"] 15) w
  = (advance (advance (advance w)),
     Return (Locals.mk "*" (Some 12) (Some 9) "12 × 9" 108)).
Proof.
  intros w. split; [| reflexivity].
  exact (proj1 (multiplication_question "hard"
                  (Settings.mk 100 ["+"; "-"; "*"; "/"] 15) w
                  (advance (advance (advance w)))
                  (Locals.mk "*" (Some 12) (Some 9) "12 × 9" 108)
                  eq_refl eq_refl eq_refl)).
Defined.

(** X3. The initial values of [question] and [answer] never leave
    [generate_question]: a returned question has a non-empty text, the time
    limit of one of the tiers, and an answer of 0 only when it is a
    subtraction of two equal operands. *)
Theorem generated_question_wellformed (d : json) (w w' : World)
    (q : Question) :
  generate_question d w = (w', Return q) ->
  question q <> "" /\
  In (time_limit q) [30; 20; 15] /\
  exists tier settings locals,
    d = JStr tier /\
    DIFFICULTY_SETTINGS !! tier = Some settings /\
    generate_question_locals settings w = (w', Return locals) /\
    time_limit q = Settings.time_limit settings /\
    In (Locals.operation locals) (Settings.operations settings) /\
    (answer q = 0 ->
     Locals.operation locals = "-" /\
     Locals.num1 locals = Locals.num2 locals).
Proof.
  intros H.
  apply generate_question_Return in H
    as (tier & settings & locals & -> & Hs & Hl & ->).
  destruct (generate_question_locals_shape _ _ _ _ Hl) as [Hin Hshape].
  cbn [question time_limit answer].
  assert (In (Locals.operation locals) ["+"; "-"; "*"; "/"]) as Hops.
  { pose proof Hs as Hs'.
    apply DIFFICULTY_SETTINGS_lookup in Hs' as [[_ ->] | [[_ ->] | [_ ->]]];
      cbn in Hin |- *; tauto. }
  split; [| split].
  - destruct Hshape; cbn [Locals.question Locals.operation] in *;
      try (apply append_nonempty; cbn; discriminate).
    contradiction.
  - pose proof Hs as Hs'.
    apply DIFFICULTY_SETTINGS_lookup in Hs' as [[_ ->] | [[_ ->] | [_ ->]]];
      cbn; tauto.
  - exists tier, settings, locals.
    repeat (split; [assumption || reflexivity |]).
    intros Hzero.
    destruct Hshape as [a b ? ? | a b ? ? | a b ? ? | a b ? ? | op Hno];
      cbn [Locals.answer Locals.operation Locals.num1 Locals.num2] in *;
      try nia; try contradiction.
    split; [reflexivity |]. f_equal. lia.
Qed.

Lemma generated_question_wellformed_witness :
  let w := sample_world [1; 5; 5] [] in
  generate_question (JStr "easy") w
  = (advance (advance (advance w)), Return (mkQuestion "6 - 6" 0 30)) /\
  "6 - 6" <> "".
Proof.
  intros w. split; [reflexivity |].
  exact (proj1 (generated_question_wellformed (JStr "easy") w
                  (advance (advance (advance w)))
                  (mkQuestion "6 - 6" 0 30) eq_refl)).
Defined.

(** X4. [generate_question] reads the random source and nothing else: the
    session, the clock and the results table are as before whether it
    returns or raises; when it returns it has consumed exactly three raw
    draws, and when it raises it has consumed none. *)
Theorem generate_question_world (d : json) (w : World) :
  session (fst (generate_question d w)) = session w /\
  clock (fst (generate_question d w)) = clock w /\
  db (fst (generate_question d w)) = db w /\
  (forall w' q, generate_question d w = (w', Return q) ->
                w' = advance (advance (advance w))) /\
  (forall w' e, generate_question d w = (w', Raise e) -> w' = w).
Proof.
  destruct (rng_only_generate_question d w) as (Hs & Hc & Hd).
  do 3 (split; [assumption |]).
  split.
  - intros w' q H. pose proof H as H'.
    apply generate_question_Return in H'
      as (tier & settings & locals & -> & Hset & Hl & ->).
    destruct (generate_question_locals_total tier settings w Hset)
      as [locals' Hl'].
    congruence.
  - intros w' e H. unfold generate_question in H.
    destruct d; cbn [settings_item] in H;
      try (unfold bind, raise in H; congruence).
    destruct (DIFFICULTY_SETTINGS !! s) as [settings |] eqn:Hset.
    + destruct (generate_question_locals_total s settings w Hset)
        as [locals Hl].
      pose proof (generate_question_tier _ _ _ _ _ Hset Hl) as Hq.
      unfold generate_question, settings_item in Hq. rewrite Hset in Hq.
      congruence.
    + unfold bind, raise in H. congruence.
Qed.

(** ** More on the handlers *)

Lemma submit_answer_inactive (int_of_str : string -> option Z)
    (data : gmap string json) (w : World) :
  truthy (game_active (session w)) = false ->
  submit_answer int_of_str data w
  = (w, Return (Failure "Nenhum jogo ativo")).
Proof.
  intros Hf. unfold submit_answer.
  unfold bind at 1. cbn [session_get]. now rewrite Hf.
Qed.

Lemma end_game_inactive (w : World) :
  truthy (game_active (session w)) = false ->
  end_game w = (w, Return (Failure "Nenhum jogo ativo")).
Proof.
  intros Hf. unfold end_game.
  unfold bind at 1. cbn [session_get]. now rewrite Hf.
Qed.

Lemma submit_answer_no_question (int_of_str : string -> option Z)
    (data : gmap string json) (w : World) :
  game_active (session w) = Some true ->
  current_question (session w) = None ->
  submit_answer int_of_str data w
  = (w, Return (Failure "Nenhuma pergunta atual")).
Proof.
  intros Hact Hq. unfold submit_answer.
  unfold bind at 1. cbn [session_get]. rewrite Hact.
  unfold bind at 1. cbn [session_get truthy default from_option negb id].
  now rewrite Hq.
Qed.

Lemma end_game_run (w : World) (s n c t0 : Z) (d : json) :
  game_active (session w) = Some true ->
  difficulty (session w) = Some d ->
  score (session w) = Some s ->
  total_questions (session w) = Some n ->
  correct_answers (session w) = Some c ->
  start_time (session w) = Some t0 ->
  end_game w
  = (mkWorld (set_game_active false (session w)) (rng w)
       (fun k => clock w (S k))
       (db w ++ [final_row d s n c (clock w 0%nat - t0)]),
     Return (Ended s n c d)).
Proof.
  intros Hact Hd Hs Hn Hc Ht. unfold end_game, final_row.
  destruct w as [[ga df sc tq ca st cq qst] r cl rows].
  cbn [session game_active difficulty score total_questions correct_answers
       start_time] in *.
  subst. run_handler.
  destruct (Z.ltb_spec 0 n); run_handler; [run_division c n |];
    reflexivity.
Qed.

Lemma generate_question_pending (d : json) (w w' : World) (q : Question) :
  generate_question d w = (w', Return q) ->
  0 <= answer q /\ In (time_limit q) [30; 20; 15].
Proof.
  intros H.
  apply generate_question_Return in H
    as (tier & settings & locals & -> & Hs & Hl & ->).
  destruct (generate_question_locals_shape _ _ _ _ Hl) as [_ Hshape].
  cbn [answer time_limit]. split.
  - destruct Hshape; cbn [Locals.answer]; nia.
  - apply DIFFICULTY_SETTINGS_lookup in Hs as [[_ ->] | [[_ ->] | [_ ->]]];
      cbn; tauto.
Qed.

(** [start_game_session], with the origin of the first question. *)
Lemma start_game_session_generated (data : gmap string json) (w : World) :
  let fresh :=
    fresh_session (default (JStr "easy") (data !! "difficulty"))
      (clock w 0%nat) (session w) in
  (session (fst (start_game data w)) = fresh /\
   exists e, snd (start_game data w) = Raise e) \/
  exists (q : Question) (w1 w2 : World),
    generate_question (default (JStr "easy") (data !! "difficulty")) w1
    = (w2, Return q) /\
    snd (start_game data w)
    = Return (Started (question q) (time_limit q)) /\
    session (fst (start_game data w))
    = set_question_start_time (clock w 1%nat) (set_current_question q fresh).
Proof.
  intros fresh.
  remember (start_game data w) as res eqn:Hres.
  unfold start_game in Hres.
  set (d := default (JStr "easy") (data !! "difficulty")) in *.
  destruct w as [sess r cl rows].
  run_handler in Hres.
  match type of Hres with
  | context [bind (generate_question d) _ ?w1] =>
      pose proof (rng_only_generate_question d w1) as (Hs & Hc & _);
      unfold bind at 1 in Hres;
      destruct (generate_question d w1) as [[s2 r2 cl2 rows2] [q | e]] eqn:Hg
  end; cbn [fst session clock] in Hs, Hc; subst s2 cl2; run_handler in Hres;
    subst res.
  - right. eexists q, _, _. split; [exact Hg |]. split; reflexivity.
  - left. split; [reflexivity | eexists; reflexivity].
Qed.

(** [next_question_step_session], with the origin of the next question. *)
Lemma next_question_step_generated (is_correct : bool) (correct_answer : Z)
    (w : World) :
  (session (fst (next_question_step is_correct correct_answer w))
   = session w /\
   exists e, snd (next_question_step is_correct correct_answer w) = Raise e)
  \/
  exists (q' : Question) (d : json) (w2 : World),
    difficulty (session w) = Some d /\
    generate_question d w = (w2, Return q') /\
    session (fst (next_question_step is_correct correct_answer w))
    = set_question_start_time (clock w 0%nat)
        (set_current_question q' (session w)).
Proof.
  remember (next_question_step is_correct correct_answer w) as res eqn:Hres.
  unfold next_question_step in Hres.
  destruct (difficulty (session w)) as [d |] eqn:Hd.
  - rewrite (bind_session_item difficulty _ _ d) in Hres by exact Hd.
    unfold bind at 1 in Hres.
    pose proof (rng_only_generate_question d w) as (Hs & Hc & _).
    destruct (generate_question d w) as [[s2 r2 cl2 rows2] [q' | e]] eqn:Hg;
      cbn [fst session clock] in Hs, Hc; subst s2 cl2.
    + right. exists q', d, (mkWorld (session w) r2 (clock w) rows2).
      split; [reflexivity |]. split; [exact Hg |]. subst res.
      destruct (session w) as [ga df [sc |] [tq |] [ca |] st cq qst];
        reflexivity.
    + left. subst res. split; [reflexivity | eexists; reflexivity].
  - rewrite bind_session_item_None in Hres by exact Hd. left. subst res.
    split; [reflexivity | eexists; reflexivity].
Qed.

(** With the difficulty of one of the three tiers in the session, the end
    of [submit_answer] returns, and the world it leaves is known. *)
Lemma next_question_step_world (is_correct : bool) (correct_answer : Z)
    (sess : Session) (n c s : Z) (r cl : nat -> Z) (rows : list GameResult.t)
    (tier : string) (settings : Settings.t) :
  difficulty sess = Some (JStr tier) ->
  DIFFICULTY_SETTINGS !! tier = Some settings ->
  exists q' : Question,
    generate_question (JStr tier)
      (mkWorld (with_counters sess n c s) r cl rows)
    = (mkWorld (with_counters sess n c s) (fun k => r (S (S (S k)))) cl rows,
       Return q') /\
    time_limit q' = Settings.time_limit settings /\
    next_question_step is_correct correct_answer
      (mkWorld (with_counters sess n c s) r cl rows)
    = (mkWorld
         (set_question_start_time (cl 0%nat)
            (set_current_question q' (with_counters sess n c s)))
         (fun k => r (S (S (S k)))) (fun k => cl (S k)) rows,
       Return (Submitted is_correct correct_answer s (question q')
                 (Settings.time_limit settings) n c)).
Proof.
  intros Hd Hs. unfold next_question_step.
  rewrite (bind_session_item difficulty _ _ (JStr tier)) by exact Hd.
  set (w := mkWorld (with_counters sess n c s) r cl rows).
  destruct (generate_question_locals_total tier settings w Hs) as [locals Hl].
  pose proof (generate_question_tier _ _ _ _ _ Hs Hl) as Hq.
  rewrite (bind_step _ _ _ _ _ Hq). run_handler.
  exists (mkQuestion (Locals.question locals) (Locals.answer locals)
            (Settings.time_limit settings)).
  split; [exact Hq |]. split; reflexivity.
Qed.

Section SubmitMore.

Variable int_of_str : string -> option Z.

Lemma submit_answer_returns (data : gmap string json) (w : World)
    (q : Question) (n c s t0 : Z) (ua : option Z)
    (tier : string) (settings : Settings.t) :
  game_active (session w) = Some true ->
  current_question (session w) = Some q ->
  total_questions (session w) = Some n ->
  correct_answers (session w) = Some c ->
  score (session w) = Some s ->
  question_start_time (session w) = Some t0 ->
  difficulty (session w) = Some (JStr tier) ->
  DIFFICULTY_SETTINGS !! tier = Some settings ->
  coerce_answer int_of_str (default JNull (data !! "answer")) w
  = (w, Return ua) ->
  let is_correct := answer_eq ua (answer q) in
  let c' := if is_correct then c + 1 else c in
  let s' :=
    if is_correct
    then s + 10 + bonus_points (total_seconds (clock w 0%nat - t0))
                    (time_limit q)
    else s in
  exists q' : Question,
    generate_question (JStr tier)
      (mkWorld (with_counters (session w) (n + 1) c' s') (rng w)
         (fun k => clock w (S k)) (db w))
    = (mkWorld (with_counters (session w) (n + 1) c' s')
         (fun k => rng w (S (S (S k)))) (fun k => clock w (S k)) (db w),
       Return q') /\
    time_limit q' = Settings.time_limit settings /\
    submit_answer int_of_str data w
    = (mkWorld
         (set_question_start_time (clock w 1%nat)
            (set_current_question q'
               (with_counters (session w) (n + 1) c' s')))
         (fun k => rng w (S (S (S k)))) (fun k => clock w (S (S k))) (db w),
       Return (Submitted is_correct (answer q) s' (question q')
                 (Settings.time_limit settings) (n + 1) c')).
Proof.
  intros Hact Hq Hn Hc Hs Ht Hd Hset Hco is_correct c' s'.
  rewrite (submit_answer_scored int_of_str data w q n c s t0 ua)
    by assumption.
  fold is_correct. fold c'. fold s'.
  destruct (next_question_step_world is_correct (answer q)
              (with_counters (session w) (n + 1) c' s') (n + 1) c' s'
              (rng w) (fun k => clock w (S k)) (db w) tier settings
              Hd Hset)
    as (q' & Hgen & Htl & Hrun).
  exists q'. split; [exact Hgen |]. split; [exact Htl |]. exact Hrun.
Qed.

End SubmitMore.

Lemma float_to_int_le (x : Q) (k : Z) :
  0 <= k -> (x <= inject_Z k)%Q -> float_to_int x <= k.
Proof.
  destruct x as [num den]. unfold float_to_int, Qle, inject_Z.
  cbn [Qnum Qden]. intros Hk H.
  destruct (Z.le_gt_cases 0 num) as [Hpos | Hneg].
  - apply Z.quot_le_upper_bound; lia.
  - assert (Z.quot num (Z.pos den) <= 0)
      by (apply Z.quot_le_upper_bound; lia || nia).
    lia.
Qed.

Lemma float_to_int_ge (x : Q) (k : Z) :
  0 <= k -> (inject_Z k <= x)%Q -> k <= float_to_int x.
Proof.
  destruct x as [num den]. unfold float_to_int, Qle, inject_Z.
  cbn [Qnum Qden]. intros Hk H.
  apply Z.quot_le_lower_bound; lia.
Qed.

(** Without a step back of the clock the bonus is at most 10. *)
Lemma bonus_points_le_10 (delta time_limit : Z) :
  0 <= delta -> bonus_points (total_seconds delta) time_limit <= 10.
Proof.
  intros Hd. unfold bonus_points.
  destruct (Qlt_bool _ _); [| lia].
  apply Z.max_lub; [lia |].
  apply float_to_int_le; [lia |].
  unfold total_seconds, Qle, Qminus, Qplus, Qopp, inject_Z.
  cbn [Qnum Qden]. lia.
Qed.

(** After a step back of the clock of [k] whole seconds the bonus is at
    least [10 + k]. *)
Lemma bonus_points_clock_back (delta time_limit k : Z) :
  0 <= k -> delta <= - (1000000 * k) -> 0 <= time_limit -> 0 < k \/ delta < 0 ->
  10 + k <= bonus_points (total_seconds delta) time_limit.
Proof.
  intros Hk Hd Htl Hneg. unfold bonus_points.
  assert (Qlt_bool (total_seconds delta) (Qmake time_limit 2) = true) as ->.
  { apply Qlt_bool_iff. unfold total_seconds, Qlt. cbn [Qnum Qden]. lia. }
  apply Z.max_le_iff. right.
  apply float_to_int_ge; [lia |].
  unfold total_seconds, Qle, Qminus, Qplus, Qopp, inject_Z.
  cbn [Qnum Qden]. lia.
Qed.

Section SubmitExtras.

Variable int_of_str : string -> option Z.

(** X5. An active session without a pending question: for a body that is
    a JSON object [submit_answer] returns the failure body "Nenhuma pergunta
    atual"; for any other JSON body it raises [AttributeError] at
    [data.get], which comes before the check of the pending question.  In
    both cases nothing is changed, not even [total_questions]. *)
Theorem no_current_question (body : json) (w : World) :
  game_active (session w) = Some true ->
  current_question (session w) = None ->
  submit_answer_request int_of_str body w
  = (w, match body with
        | JDict _ => Return (Failure "Nenhuma pergunta atual")
        | _ => Raise AttributeError
        end).
Proof.
  intros Hact Hq. unfold submit_answer_request.
  unfold bind at 1. cbn [session_get]. rewrite Hact.
  cbn [truthy default from_option negb id].
  destruct body; cbn [body_fields]; try reflexivity.
  apply (submit_answer_no_question int_of_str _ w Hact Hq).
Qed.

(** X6. A payload without an [answer] key, or with [null], a list, an
    object or NaN as the answer, is scored as an incorrect answer: the
    handler returns [is_correct] false, counts the question and leaves the
    score and [correct_answers] as they were. *)
Theorem missing_answer_is_incorrect (data : gmap string json) (w : World)
    (q : Question) (n c s t0 : Z) (tier : string) (settings : Settings.t) :
  game_active (session w) = Some true ->
  current_question (session w) = Some q ->
  total_questions (session w) = Some n ->
  correct_answers (session w) = Some c ->
  score (session w) = Some s ->
  question_start_time (session w) = Some t0 ->
  difficulty (session w) = Some (JStr tier) ->
  DIFFICULTY_SETTINGS !! tier = Some settings ->
  data !! "answer" = None \/
  data !! "answer" = Some JNull \/
  data !! "answer" = Some (JFloat FNaN) \/
  (exists l, data !! "answer" = Some (JList l)) \/
  (exists kvs, data !! "answer" = Some (JDict kvs)) ->
  exists (q' : Question) (w' : World),
    submit_answer int_of_str data w
    = (w', Return (Submitted false (answer q) s (question q')
                     (Settings.time_limit settings) (n + 1) c)) /\
    total_questions (session w') = Some (n + 1) /\
    correct_answers (session w') = Some c /\
    score (session w') = Some s.
Proof.
  intros Hact Hq Hn Hc Hs Ht Hd Hset Hraw.
  assert (coerce_answer int_of_str (default JNull (data !! "answer")) w
          = (w, Return None)) as Hco.
  { destruct Hraw as [-> | [-> | [-> | [[l ->] | [kvs ->]]]]]; reflexivity. }
  destruct (submit_answer_returns int_of_str data w q n c s t0 None
              tier settings Hact Hq Hn Hc Hs Ht Hd Hset Hco)
    as (q' & _ & _ & Hrun).
  cbn [answer_eq] in Hrun.
  eexists q', _. split; [exact Hrun |]. repeat split.
Qed.

(** X7. A JSON number or boolean is converted by [int] before it is
    compared: a finite float counts as its truncation toward zero (3.7 is
    accepted where the answer is 3) and [true] and [false] count as 1 and
    0. *)
Theorem number_answer_is_truncated (data : gmap string json) (w : World)
    (q : Question) (n c s t0 : Z) (tier : string) (settings : Settings.t)
    (v : Z) :
  game_active (session w) = Some true ->
  current_question (session w) = Some q ->
  total_questions (session w) = Some n ->
  correct_answers (session w) = Some c ->
  score (session w) = Some s ->
  question_start_time (session w) = Some t0 ->
  difficulty (session w) = Some (JStr tier) ->
  DIFFICULTY_SETTINGS !! tier = Some settings ->
  (exists x, data !! "answer" = Some (JFloat (FFinite x)) /\
             v = Z.quot (Qnum x) (Z.pos (Qden x))) \/
  (exists b : bool, data !! "answer" = Some (JBool b) /\
                    v = if b then 1 else 0) \/
  data !! "answer" = Some (JInt v) ->
  exists (q' : Question) (w' : World) (s' c' : Z),
    submit_answer int_of_str data w
    = (w', Return (Submitted (v =? answer q) (answer q) s' (question q')
                     (Settings.time_limit settings) (n + 1) c')) /\
    (v = answer q -> c' = c + 1 /\ s + 10 <= s') /\
    (v <> answer q -> c' = c /\ s' = s).
Proof.
  intros Hact Hq Hn Hc Hs Ht Hd Hset Hraw.
  assert (coerce_answer int_of_str (default JNull (data !! "answer")) w
          = (w, Return (Some v))) as Hco.
  { destruct Hraw as [(x & -> & ->) | [(b & -> & ->) | ->]]; reflexivity. }
  destruct (submit_answer_returns int_of_str data w q n c s t0 (Some v)
              tier settings Hact Hq Hn Hc Hs Ht Hd Hset Hco)
    as (q' & _ & _ & Hrun).
  cbn [answer_eq] in Hrun.
  eexists q', _, _, _. split; [exact Hrun |].
  pose proof (bonus_points_nonneg
                (total_seconds (clock w 0%nat - t0)) (time_limit q)).
  split; intros Hv.
  - apply Z.eqb_eq in Hv. rewrite Hv. split; [reflexivity | lia].
  - apply Z.eqb_neq in Hv. rewrite Hv. split; reflexivity.
Qed.

(** X8. When the clock has not stepped back since the pending question was
    issued, a correct answer adds at least 10 and at most 20 points. *)
Theorem correct_answer_gain (data : gmap string json) (w : World)
    (q : Question) (n c s t0 : Z) :
  game_active (session w) = Some true ->
  current_question (session w) = Some q ->
  total_questions (session w) = Some n ->
  correct_answers (session w) = Some c ->
  score (session w) = Some s ->
  question_start_time (session w) = Some t0 ->
  coerce_answer int_of_str (default JNull (data !! "answer")) w
  = (w, Return (Some (answer q))) ->
  t0 <= clock w 0%nat ->
  exists s' : Z,
    score (session (fst (submit_answer int_of_str data w))) = Some s' /\
    s + 10 <= s' <= s + 20.
Proof.
  intros Hact Hq Hn Hc Hs Ht Hco Hclock.
  rewrite (submit_answer_scored int_of_str data w q n c s t0
             (Some (answer q))) by assumption.
  use_counters Hn' Hc' Hs'. rewrite Hs'.
  cbn [answer_eq]. rewrite Z.eqb_refl.
  eexists. split; [reflexivity |].
  pose proof (bonus_points_nonneg
                (total_seconds (clock w 0%nat - t0)) (time_limit q)).
  pose proof (bonus_points_le_10 (clock w 0%nat - t0) (time_limit q)).
  lia.
Qed.

(** X9. The bonus has no upper bound of its own: when the clock reads [k]
    whole seconds (at least one) before the time the pending question was
    issued, a correct answer adds at least [20 + k] points. *)
Theorem clock_step_back_gain (data : gmap string json) (w : World)
    (q : Question) (n c s t0 k : Z) :
  game_active (session w) = Some true ->
  current_question (session w) = Some q ->
  total_questions (session w) = Some n ->
  correct_answers (session w) = Some c ->
  score (session w) = Some s ->
  question_start_time (session w) = Some t0 ->
  coerce_answer int_of_str (default JNull (data !! "answer")) w
  = (w, Return (Some (answer q))) ->
  0 <= time_limit q ->
  1 <= k ->
  clock w 0%nat <= t0 - 1000000 * k ->
  exists s' : Z,
    score (session (fst (submit_answer int_of_str data w))) = Some s' /\
    s + 20 + k <= s'.
Proof.
  intros Hact Hq Hn Hc Hs Ht Hco Htl Hk Hclock.
  rewrite (submit_answer_scored int_of_str data w q n c s t0
             (Some (answer q))) by assumption.
  use_counters Hn' Hc' Hs'. rewrite Hs'.
  cbn [answer_eq]. rewrite Z.eqb_refl.
  eexists. split; [reflexivity |].
  pose proof (bonus_points_clock_back (clock w 0%nat - t0) (time_limit q) k).
  lia.
Qed.

(** X10. A submission that is scored moves the game on: the pending
    question is replaced by the one [generate_question] returns for the
    session's tier from the next three raw draws, its start time is the
    second clock reading of the request (the first is the one the elapsed
    time is measured with), the results table is untouched, and the counters
    in the response are those left in the session. *)
Theorem submit_answer_advances (data : gmap string json) (w : World)
    (q : Question) (n c s t0 : Z) (ua : option Z)
    (tier : string) (settings : Settings.t) :
  game_active (session w) = Some true ->
  current_question (session w) = Some q ->
  total_questions (session w) = Some n ->
  correct_answers (session w) = Some c ->
  score (session w) = Some s ->
  question_start_time (session w) = Some t0 ->
  difficulty (session w) = Some (JStr tier) ->
  DIFFICULTY_SETTINGS !! tier = Some settings ->
  coerce_answer int_of_str (default JNull (data !! "answer")) w
  = (w, Return ua) ->
  let is_correct := answer_eq ua (answer q) in
  let c' := if is_correct then c + 1 else c in
  let s' :=
    if is_correct
    then s + 10 + bonus_points (total_seconds (clock w 0%nat - t0))
                    (time_limit q)
    else s in
  exists (q' : Question) (w' : World),
    generate_question (JStr tier)
      (mkWorld (with_counters (session w) (n + 1) c' s') (rng w)
         (fun k => clock w (S k)) (db w))
    = (mkWorld (with_counters (session w) (n + 1) c' s')
         (fun k => rng w (S (S (S k)))) (fun k => clock w (S k)) (db w),
       Return q') /\
    submit_answer int_of_str data w
    = (w', Return (Submitted is_correct (answer q) s' (question q')
                     (Settings.time_limit settings) (n + 1) c')) /\
    current_question (session w') = Some q' /\
    time_limit q' = Settings.time_limit settings /\
    question_start_time (session w') = Some (clock w 1%nat) /\
    score (session w') = Some s' /\
    total_questions (session w') = Some (n + 1) /\
    correct_answers (session w') = Some c' /\
    game_active (session w') = Some true /\
    difficulty (session w') = Some (JStr tier) /\
    start_time (session w') = start_time (session w) /\
    (forall k, rng w' k = rng w (S (S (S k)))) /\
    (forall k, clock w' k = clock w (S (S k))) /\
    db w' = db w.
Proof.
  intros Hact Hq Hn Hc Hs Ht Hd Hset Hco is_correct c' s'.
  destruct (submit_answer_returns int_of_str data w q n c s t0 ua
              tier settings Hact Hq Hn Hc Hs Ht Hd Hset Hco)
    as (q' & Hgen & Htl & Hrun).
  eexists q', _. split; [exact Hgen |]. split; [exact Hrun |].
  cbn. repeat split; assumption.
Qed.

End SubmitExtras.

(** ** The results table *)

Create HintDb rows.

Lemma keeps_db_ret {A} (a : A) : keeps_db (ret a).
Proof. intros w. reflexivity. Qed.

Lemma keeps_db_raise {A} (e : exn) : keeps_db (@raise A e).
Proof. intros w. reflexivity. Qed.

Lemma keeps_db_now : keeps_db now.
Proof. intros w. reflexivity. Qed.

Lemma keeps_db_modify_session (f : Session -> Session) :
  keeps_db (modify_session f).
Proof. intros w. reflexivity. Qed.

Lemma keeps_db_session_get {A} (field : Session -> option A) :
  keeps_db (session_get field).
Proof. intros w. reflexivity. Qed.

Lemma keeps_db_session_item {A} (field : Session -> option A) :
  keeps_db (session_item field).
Proof. intros w. unfold session_item. now destruct (field (session w)). Qed.

Lemma keeps_db_generate_question (d : json) : keeps_db (generate_question d).
Proof. intros w. apply (rng_only_generate_question d w). Qed.

Lemma keeps_db_coerce_answer (int_of_str : string -> option Z) (raw : json) :
  keeps_db (coerce_answer int_of_str raw).
Proof.
  intros w. unfold coerce_answer.
  destruct (py_int int_of_str raw) as [n | []]; reflexivity.
Qed.

Lemma keeps_db_bind {A B} (m : M A) (k : A -> M B) :
  keeps_db m -> (forall a, keeps_db (k a)) -> keeps_db (bind m k).
Proof.
  intros Hm Hk w. unfold bind.
  specialize (Hm w). destruct (m w) as [w1 [a | e]]; cbn [fst] in Hm.
  - now rewrite (Hk a w1).
  - exact Hm.
Qed.

#[local] Hint Resolve keeps_db_ret keeps_db_raise keeps_db_now
  keeps_db_modify_session keeps_db_session_get keeps_db_session_item
  keeps_db_generate_question keeps_db_coerce_answer : rows.
#[local] Hint Extern 2 (keeps_db (bind _ _)) =>
  apply keeps_db_bind; [| intros ?] : rows.
#[local] Hint Extern 3 (keeps_db (if ?c then _ else _)) => destruct c : rows.
#[local] Hint Extern 3 (keeps_db (match ?x with Some _ => _ | None => _ end)) =>
  destruct x : rows.

(** X11. Neither [start_game] nor [submit_answer] writes to the results
    table, whatever the payload and the session and whether they return or
    raise; [end_game] on a session that is not active does not either. *)
Theorem only_end_game_writes (int_of_str : string -> option Z)
    (data : gmap string json) (w : World) :
  db (fst (start_game data w)) = db w /\
  db (fst (submit_answer int_of_str data w)) = db w /\
  (game_active (session w) <> Some true -> db (fst (end_game w)) = db w).
Proof.
  split; [| split].
  - revert w. change (keeps_db (start_game data)).
    unfold start_game. auto 30 with rows.
  - revert w. change (keeps_db (submit_answer int_of_str data)).
    unfold submit_answer. cbv zeta. auto 40 with rows.
  - intros Hact. rewrite end_game_inactive; [reflexivity |].
    destruct (game_active (session w)) as [[|] |]; [congruence | |];
      reflexivity.
Qed.

(** ** The life cycle, continued *)

(** An argument of [generate_question] is the name of a tier, or the lookup
    of the settings fails on it. *)
Lemma generate_question_cases (d : json) :
  (exists tier settings,
     d = JStr tier /\ DIFFICULTY_SETTINGS !! tier = Some settings) \/
  (~ In d [JStr "easy"; JStr "medium"; JStr "hard"] /\
   exists e, (e = KeyError \/ e = TypeError) /\
             forall w, generate_question d w = (w, Raise e)).
Proof.
  destruct d as [| b | n | f | s | l | kvs];
    try (right; split; [cbn; intuition discriminate |];
         exists KeyError; split; [now left | reflexivity]);
    try (right; split; [cbn; intuition discriminate |];
         exists TypeError; split; [now right | reflexivity]).
  destruct (DIFFICULTY_SETTINGS !! s) as [settings |] eqn:E.
  - left. eauto.
  - right. split.
    + cbn. intros [H | [H | [H | []]]]; injection H as <-;
        vm_compute in E; discriminate E.
    + exists KeyError. split; [now left |]. intros w.
      unfold generate_question. cbn [settings_item]. now rewrite E.
Qed.

Lemma tier_is_listed (tier : string) (settings : Settings.t) :
  DIFFICULTY_SETTINGS !! tier = Some settings ->
  In (JStr tier) [JStr "easy"; JStr "medium"; JStr "hard"].
Proof.
  intros H.
  apply DIFFICULTY_SETTINGS_lookup in H as [[-> _] | [[-> _] | [-> _]]];
    cbn; tauto.
Qed.

Lemma app_one_more {A} (l : list A) (x : A) : l <> (l ++ [x])%list.
Proof.
  intros E. apply (f_equal length) in E.
  rewrite length_app in E. cbn [length] in E. lia.
Qed.

(** X12. [end_game] never raises [ZeroDivisionError]: the division
    correct / total is evaluated behind the guard [total_questions > 0]
    only, and with no question counted the accuracy is the [0] of the
    conditional.  Whenever [end_game] has written a row, the session was
    active with every key in place, and the row holds its difficulty, score
    and counters as they are, that accuracy, and as duration the time
    between [start_time] and the clock reading of the request. *)
Theorem end_game_row (w : World) :
  snd (end_game w) <> Raise ZeroDivisionError /\
  forall row : GameResult.t,
    db (fst (end_game w)) = (db w ++ [row])%list ->
    exists (d : json) (s n c t0 : Z),
      game_active (session w) = Some true /\
      difficulty (session w) = Some d /\
      score (session w) = Some s /\
      total_questions (session w) = Some n /\
      correct_answers (session w) = Some c /\
      start_time (session w) = Some t0 /\
      snd (end_game w) = Return (Ended s n c d) /\
      row = GameResult.mk d s n c
              (if 0 <? n then Percent c n else IntZero)
              (Seconds (clock w 0%nat - t0)).
Proof.
  remember (end_game w) as res eqn:Hres. unfold end_game in Hres.
  destruct w as [[ga d sc tq ca st cq qst] r cl rows].
  destruct ga as [[|] |]; run_handler in Hres;
    [| subst res; split; [discriminate |]; intros row E; cbn in E;
       destruct (app_one_more _ _ E) ..].
  destruct st as [t0 |]; destruct tq as [n |]; destruct ca as [c |];
    destruct d as [d |]; destruct sc as [s |]; run_handler in Hres;
    try destruct (Z.ltb_spec 0 n); run_handler in Hres;
    try (run_division_in Hres c n; run_handler in Hres);
    subst res; (split; [discriminate |]); intros row E; cbn [fst db] in E;
    try (destruct (app_one_more _ _ E)).
  - apply app_inv_head in E. injection E as <-.
    exists d, s, n, c, t0. repeat split.
    destruct (Z.ltb_spec 0 n); [reflexivity | lia].
  - apply app_inv_head in E. injection E as <-.
    exists d, s, n, c, t0. repeat split.
    destruct (Z.ltb_spec 0 n); [lia | reflexivity].
Qed.

(** X13. A game is recorded once: after an [end_game] that succeeded, a
    second [end_game] and any [submit_answer] return the failure body
    "Nenhum jogo ativo" and change nothing, so the table has exactly one
    row more than before the first. *)
Theorem end_game_once (int_of_str : string -> option Z) (w : World)
    (s n c t0 : Z) (d : json) :
  game_active (session w) = Some true ->
  difficulty (session w) = Some d ->
  score (session w) = Some s ->
  total_questions (session w) = Some n ->
  correct_answers (session w) = Some c ->
  start_time (session w) = Some t0 ->
  let ended := fst (end_game w) in
  end_game ended = (ended, Return (Failure "Nenhum jogo ativo")) /\
  (forall data,
     submit_answer int_of_str data ended
     = (ended, Return (Failure "Nenhum jogo ativo"))) /\
  length (db (fst (end_game ended))) = S (length (db w)).
Proof.
  intros Hact Hd Hs Hn Hc Ht ended.
  assert (truthy (game_active (session ended)) = false) as Hf
    by (subst ended; now rewrite (end_game_run w s n c t0 d)).
  split; [| split].
  - now apply end_game_inactive.
  - intros data. now apply submit_answer_inactive.
  - rewrite (end_game_inactive ended Hf). cbn [fst]. subst ended.
    rewrite (end_game_run w s n c t0 d) by assumption. cbn [fst db].
    rewrite length_app. cbn [length]. lia.
Qed.

Lemma end_game_once_witness :
  end_game (fst (end_game sample_play))
  = (fst (end_game sample_play), Return (Failure "Nenhum jogo ativo")).
Proof.
  exact (proj1 (end_game_once decimal_literal sample_play 0 0 0 0
                  (JStr "easy")
                  eq_refl eq_refl eq_refl eq_refl eq_refl eq_refl)).
Defined.

(** X14. [start_game] does not check the difficulty before it writes to the
    session: with a difficulty that is not the name of a tier it raises
    ([KeyError], or [TypeError] for a list or an object) after it has
    marked the game active and reset the counters, taking one clock reading
    and no draw, and leaving the pending question of an earlier game, if
    any, in place. *)
Theorem start_game_unknown_difficulty (data : gmap string json) (w : World)
    (d : json) :
  data !! "difficulty" = Some d ->
  ~ In d [JStr "easy"; JStr "medium"; JStr "hard"] ->
  exists e : exn,
    (e = KeyError \/ e = TypeError) /\
    start_game data w
    = (mkWorld
         (mkSession (Some true) (Some d) (Some 0) (Some 0) (Some 0)
            (Some (clock w 0%nat)) (current_question (session w))
            (question_start_time (session w)))
         (rng w) (fun k => clock w (S k)) (db w),
       Raise e).
Proof.
  intros Hd Hnot.
  destruct (generate_question_cases d)
    as [(tier & settings & -> & Hs) | (_ & e & He & Hraise)].
  - exfalso. apply Hnot. exact (tier_is_listed _ _ Hs).
  - exists e. split; [exact He |].
    unfold start_game. rewrite Hd. cbn [default from_option id].
    destruct w as [sess r cl rows]. run_handler.
    unfold bind at 1. now rewrite Hraise.
Qed.

Lemma start_game_unknown_difficulty_witness :
  snd (start_game {["difficulty" := JStr "expert"]} (sample_world [] [5]))
  = Raise KeyError /\
  game_active
    (session (fst (start_game {["difficulty" := JStr "expert"]}
                     (sample_world [] [5]))))
  = Some true.
Proof.
  destruct (start_game_unknown_difficulty {["difficulty" := JStr "expert"]}
              (sample_world [] [5]) (JStr "expert")
              (lookup_singleton_eq _ _))
    as (e & He & Hrun).
  - cbn. intros [H | [H | [H | []]]]; discriminate H.
  - split; [reflexivity |]. rewrite Hrun. reflexivity.
Defined.

(** X15. With the name of a tier as difficulty [start_game] succeeds
    whatever the session held before: the counters are 0, the first
    question and the response carry the tier's time limit, the start time
    is the first clock reading and the question's start time the second,
    and nothing of an earlier game is left. *)
Theorem start_game_tier (data : gmap string json) (w : World)
    (tier : string) (settings : Settings.t) :
  data !! "difficulty" = Some (JStr tier) ->
  DIFFICULTY_SETTINGS !! tier = Some settings ->
  exists q : Question,
    start_game data w
    = (mkWorld
         (mkSession (Some true) (Some (JStr tier)) (Some 0) (Some 0)
            (Some 0) (Some (clock w 0%nat)) (Some q) (Some (clock w 1%nat)))
         (fun k => rng w (S (S (S k)))) (fun k => clock w (S (S k))) (db w),
       Return (Started (question q) (Settings.time_limit settings))) /\
    time_limit q = Settings.time_limit settings /\
    0 <= answer q.
Proof.
  intros Hd Hs. unfold start_game. rewrite Hd.
  cbn [default from_option id].
  destruct w as [sess r cl rows]. run_handler.
  match goal with
  | |- context [bind (generate_question (JStr tier)) _ ?w1] =>
      destruct (generate_question_locals_total tier settings w1 Hs)
        as [locals Hl];
      pose proof (generate_question_tier tier _ _ _ _ Hs Hl) as Hq;
      rewrite (bind_step _ _ _ _ _ Hq)
  end.
  run_handler.
  exists (mkQuestion (Locals.question locals) (Locals.answer locals)
            (Settings.time_limit settings)).
  split; [reflexivity |]. split; [reflexivity |].
  exact (proj1 (generate_question_pending _ _ _ _ Hq)).
Qed.

Lemma start_game_tier_witness :
  snd (start_game {["difficulty" := JStr "hard"]} sample_play)
  = Return (Started "2 + 2" 15) /\
  score (session (fst (start_game {["difficulty" := JStr "hard"]}
                         sample_play)))
  = Some 0.
Proof.
  destruct (start_game_tier {["difficulty" := JStr "hard"]} sample_play
              "hard" (Settings.mk 100 ["+"; "-"; "*"; "/"] 15)
              (lookup_singleton_eq _ _) eq_refl)
    as (q & Hrun & _).
  split; [reflexivity |]. rewrite Hrun. reflexivity.
Defined.

(** ** What every reachable session satisfies *)

Lemma session_ok_pending (sess : Session) :
  session_ok sess ->
  pending_ok (current_question sess) (question_start_time sess).
Proof. intros [| ga d s n c t0 cq qst _ _ Hp]; [constructor | exact Hp]. Qed.

Lemma session_ok_start_game (data : gmap string json) (w : World) :
  session_ok (session w) -> session_ok (session (fst (start_game data w))).
Proof.
  intros Hok. apply session_ok_pending in Hok.
  destruct (start_game_session_generated data w)
    as [[E _] | (q & w1 & w2 & Hg & _ & E)]; rewrite E.
  - apply session_started; [lia | lia | exact Hok].
  - apply generate_question_pending in Hg as [Ha Ht].
    apply session_started; [lia | lia |]. now apply pending_some.
Qed.

Lemma session_ok_end_game (w : World) :
  session_ok (session w) -> session_ok (session (fst (end_game w))).
Proof.
  intros Hok.
  destruct (truthy (game_active (session w))) eqn:Hact.
  - destruct (session w) as [ga d sc tq ca st cq qst] eqn:Hsess.
    inversion Hok as [| ga' d' s n c t0 cq' qst' Hc Hs Hp]; subst;
      [discriminate Hact |].
    cbn in Hact. subst ga'.
    rewrite (end_game_run w s n c t0 d') by (rewrite Hsess; reflexivity).
    cbn [fst session]. rewrite Hsess. now apply session_started.
  - now rewrite (end_game_inactive w Hact).
Qed.

Section ReachableSessions.

Variable int_of_str : string -> option Z.

(** When the coercion of the answer raises, the handler raises with it,
    before it has changed anything. *)
Lemma submit_answer_coerce_raises (data : gmap string json) (w : World)
    (q : Question) (e : exn) :
  game_active (session w) = Some true ->
  current_question (session w) = Some q ->
  coerce_answer int_of_str (default JNull (data !! "answer")) w
  = (w, Raise e) ->
  submit_answer int_of_str data w = (w, Raise e).
Proof.
  intros Hact Hq Hco. unfold submit_answer.
  unfold bind at 1. cbn [session_get]. rewrite Hact.
  unfold bind at 1. cbn [session_get truthy default from_option negb id].
  rewrite Hq. unfold bind at 1. now rewrite Hco.
Qed.

(** What [submit_answer] does to a session that [session_ok] admits, case
    by case. *)
Lemma submit_answer_cases (data : gmap string json) (w : World) :
  session_ok (session w) ->
  (exists resp, submit_answer int_of_str data w = (w, Return resp)) \/
  (exists negative,
     data !! "answer" = Some (JFloat (FInf negative)) /\
     submit_answer int_of_str data w = (w, Raise OverflowError)) \/
  exists (d : json) (s n c t0 t : Z) (q : Question) (ua : option Z),
    session w
    = mkSession (Some true) (Some d) (Some s) (Some n) (Some c) (Some t0)
        (Some q) (Some t) /\
    0 <= c <= n /\ 10 * c <= s /\
    submit_answer int_of_str data w
    = next_question_step (answer_eq ua (answer q)) (answer q)
        (mkWorld
           (with_counters (session w) (n + 1)
              (if answer_eq ua (answer q) then c + 1 else c)
              (if answer_eq ua (answer q)
               then s + 10 + bonus_points (total_seconds (clock w 0%nat - t))
                               (time_limit q)
               else s))
           (rng w) (fun k => clock w (S k)) (db w)).
Proof.
  intros Hok.
  destruct (session w) as [ga d sc tq ca st cq qst] eqn:Hsess.
  inversion Hok as [| ga' d' s n c t0 cq' qst' Hc Hs Hp]; subst.
  { left. eexists. apply submit_answer_inactive. now rewrite Hsess. }
  destruct ga'.
  2: { left. eexists. apply submit_answer_inactive. now rewrite Hsess. }
  destruct Hp as [| q t Ha Ht].
  { left. eexists. apply submit_answer_no_question; now rewrite Hsess. }
  destruct (coerce_answer_cases int_of_str
              (default JNull (data !! "answer")) w)
    as [(v & _ & Hco) | [[_ Hco] | (negative & Hraw & Hco)]].
  - right. right. exists d', s, n, c, t0, t, q, (Some v).
    split; [reflexivity |]. split; [exact Hc |]. split; [exact Hs |].
    rewrite <- Hsess.
    apply submit_answer_scored; try (rewrite Hsess; reflexivity); exact Hco.
  - right. right. exists d', s, n, c, t0, t, q, None.
    split; [reflexivity |]. split; [exact Hc |]. split; [exact Hs |].
    rewrite <- Hsess.
    apply submit_answer_scored; try (rewrite Hsess; reflexivity); exact Hco.
  - right. left. exists negative. split.
    + destruct (data !! "answer") as [raw |]; cbn in Hraw;
        [now subst raw | discriminate Hraw].
    + apply (submit_answer_coerce_raises data w q);
        try (rewrite Hsess; reflexivity); exact Hco.
Qed.

Lemma session_ok_submit_answer (data : gmap string json) (w : World) :
  session_ok (session w) ->
  session_ok (session (fst (submit_answer int_of_str data w))).
Proof.
  intros Hok.
  destruct (submit_answer_cases data w Hok)
    as [[resp E] | [(negative & _ & E)
       | (d & s & n & c & t0 & t & q & ua & Hsess & Hc & Hs & E)]];
    rewrite E; try exact Hok.
  pose proof (session_ok_pending _ Hok) as Hp. rewrite Hsess in Hp.
  cbn [current_question question_start_time] in Hp.
  pose proof (bonus_points_nonneg (total_seconds (clock w 0%nat - t))
                (time_limit q)) as Hb.
  match goal with
  | |- context [next_question_step ?b ?a ?w1] =>
      destruct (next_question_step_generated b a w1)
        as [[E' _] | (q' & d' & w2 & _ & Hg & E')]; rewrite E'
  end; rewrite Hsess; cbn.
  - apply session_started; [| | exact Hp];
      destruct (answer_eq ua (answer q)); lia.
  - apply generate_question_pending in Hg as [Ha Ht].
    apply session_started; [| | now apply pending_some];
      destruct (answer_eq ua (answer q)); lia.
Qed.

Lemma reachable_session_ok (w : World) :
  reachable int_of_str w -> session_ok (session w).
Proof.
  induction 1 as [r cl rows | w req _ IH | w req e _ IH _].
  - apply session_new.
  - destruct req as [data | data |]; cbn [handle].
    + now apply session_ok_start_game.
    + now apply session_ok_submit_answer.
    + now apply session_ok_end_game.
  - exact IH.
Qed.

(** X16. Whatever requests were made, with whatever payloads, draws and
    clock readings, the counters of the session stay consistent:
    0 <= correct_answers <= total_questions, and the score is at least 10
    points per correct answer. *)
Theorem reachable_counters (w : World) (n c s : Z) :
  reachable int_of_str w ->
  total_questions (session w) = Some n ->
  correct_answers (session w) = Some c ->
  score (session w) = Some s ->
  0 <= c <= n /\ 10 * c <= s.
Proof.
  intros Hr Hn Hc Hs. apply reachable_session_ok in Hr.
  destruct Hr as [| ga d s' n' c' t0 cq qst Hc' Hs' _];
    cbn in Hn, Hc, Hs; [discriminate Hn |].
  injection Hn as <-. injection Hc as <-. injection Hs as <-. auto.
Qed.

(** X17. In a reachable world [end_game] finds every session key it
    reads, so it never raises [KeyError]: on an active session the
    difficulty, the score, both counters and the start time are there, with
    0 <= correct_answers <= total_questions and at least 10 points per
    correct answer. *)
Theorem reachable_end_game (w : World) :
  reachable int_of_str w ->
  snd (end_game w) <> Raise KeyError /\
  (game_active (session w) = Some true ->
   exists (d : json) (s n c t0 : Z),
     difficulty (session w) = Some d /\
     score (session w) = Some s /\
     total_questions (session w) = Some n /\
     correct_answers (session w) = Some c /\
     start_time (session w) = Some t0 /\
     0 <= c <= n /\ 10 * c <= s).
Proof.
  intros Hr. apply reachable_session_ok in Hr.
  destruct (truthy (game_active (session w))) eqn:Hact.
  - destruct (session w) as [ga d sc tq ca st cq qst] eqn:Hsess.
    inversion Hr as [| ga' d' s n c t0 cq' qst' Hc Hs Hp]; subst;
      [discriminate Hact |].
    cbn in Hact. subst ga'. split.
    + rewrite (end_game_run w s n c t0 d') by (rewrite Hsess; reflexivity).
      discriminate.
    + intros _. exists d', s, n, c, t0. repeat split; try reflexivity; lia.
  - split.
    + rewrite (end_game_inactive w Hact). discriminate.
    + intros E. rewrite E in Hact. discriminate Hact.
Qed.

(** The exceptions of [submit_answer] on a session that [session_ok]
    admits. *)
Lemma submit_answer_raise_cases (data : gmap string json)
    (w : World) (e : exn) :
  session_ok (session w) ->
  snd (submit_answer int_of_str data w) = Raise e ->
  (e = OverflowError /\
   exists negative, data !! "answer" = Some (JFloat (FInf negative))) \/
  ((e = KeyError \/ e = TypeError) /\
   exists d, difficulty (session w) = Some d /\
             ~ In d [JStr "easy"; JStr "medium"; JStr "hard"]).
Proof.
  intros Hr Hraise.
  destruct (submit_answer_cases data w Hr)
    as [[resp E] | [(negative & Hraw & E)
       | (d & s & n & c & t0 & t & q & ua & Hsess & _ & _ & E)]];
    rewrite E in Hraise; cbn [snd] in Hraise.
  - discriminate Hraise.
  - left. injection Hraise as <-. eauto.
  - right.
    assert (difficulty (session w) = Some d) as Hd
      by (rewrite Hsess; reflexivity).
    destruct (generate_question_cases d)
      as [(tier & settings & -> & Hset) | (Hnot & e' & He' & Hgen)].
    + match type of Hraise with
      | context [next_question_step ?b ?a
                   (mkWorld (with_counters ?x ?n' ?c' ?s') ?r ?cl ?rows)] =>
          destruct (next_question_step_world b a x n' c' s' r cl rows
                      tier settings Hd Hset) as (q' & _ & _ & Hrun)
      end.
      rewrite Hrun in Hraise. discriminate Hraise.
    + unfold next_question_step in Hraise.
      rewrite (bind_session_item difficulty _ _ d) in Hraise by exact Hd.
      unfold bind at 1 in Hraise. rewrite Hgen in Hraise.
      cbn [snd] in Hraise. injection Hraise as <-. eauto.
Qed.


(** X18. In a reachable world [submit_answer] never fails on a missing
    session key.  On a body that is a JSON value it raises in three cases
    only: [AttributeError], when the game is active and the body is not an
    object; [OverflowError], when the answer is an infinite float; and the
    [KeyError] or [TypeError] of the settings lookup, when the difficulty
    stored by [start_game] is not the name of a tier. *)
Theorem reachable_submit_answer_raises (body : json) (w : World) (e : exn) :
  reachable int_of_str w ->
  snd (submit_answer_request int_of_str body w) = Raise e ->
  (e = AttributeError /\
   game_active (session w) = Some true /\
   forall kvs, body <> JDict kvs) \/
  (e = OverflowError /\
   exists data negative,
     body_fields body = Return data /\
     data !! "answer" = Some (JFloat (FInf negative))) \/
  ((e = KeyError \/ e = TypeError) /\
   exists d, difficulty (session w) = Some d /\
             ~ In d [JStr "easy"; JStr "medium"; JStr "hard"]).
Proof.
  intros Hr Hraise. apply reachable_session_ok in Hr.
  unfold submit_answer_request in Hraise.
  unfold bind at 1 in Hraise. cbn [session_get] in Hraise.
  destruct (game_active (session w)) as [[|] |] eqn:Hact;
    cbn [truthy default from_option negb id] in Hraise;
    try discriminate Hraise.
  destruct (body_fields body) as [data | e'] eqn:Hb.
  - destruct (submit_answer_raise_cases data w e Hr Hraise)
      as [[He (negative & Hinf)] | Hdiff].
    + right. left. split; [exact He |]. eauto.
    + right. right. exact Hdiff.
  - left. cbn [raise snd] in Hraise. injection Hraise as <-.
    destruct body; cbn [body_fields] in Hb; try discriminate Hb;
      injection Hb as <-; repeat split; intros kvs'; discriminate.
Qed.

End ReachableSessions.

Lemma reachable_start_game (int_of_str : string -> option Z)
    (data : gmap string json) (w : World) :
  reachable int_of_str w -> reachable int_of_str (fst (start_game data w)).
Proof. exact (reachable_handled int_of_str w (POST_start_game data)). Qed.

Lemma reachable_submit_answer (int_of_str : string -> option Z)
    (data : gmap string json) (w : World) :
  reachable int_of_str w ->
  reachable int_of_str (fst (submit_answer int_of_str data w)).
Proof. exact (reachable_handled int_of_str w (POST_submit_answer data)). Qed.

Lemma sample_world_reachable (draws readings : list Z) :
  reachable decimal_literal (sample_world draws readings).
Proof. unfold sample_world. apply reachable_first. Qed.

Lemma sample_play_reachable : reachable decimal_literal sample_play.
Proof.
  unfold sample_play, sample_game.
  apply reachable_start_game. apply sample_world_reachable.
Qed.

Lemma reachable_counters_witness :
  total_questions
    (session (fst (submit_answer decimal_literal answer_3 sample_play)))
  = Some 1 /\
  (0 <= 1 <= 1 /\ 10 * 1 <= 11).
Proof.
  split; [reflexivity |].
  apply (reachable_counters decimal_literal
           (fst (submit_answer decimal_literal answer_3 sample_play)) 1 1 11).
  - apply reachable_submit_answer. exact sample_play_reachable.
  - reflexivity.
  - reflexivity.
  - reflexivity.
Defined.

Lemma reachable_end_game_witness :
  snd (end_game sample_play) <> Raise KeyError /\
  total_questions (session sample_play) = Some 0.
Proof.
  split; [| reflexivity].
  exact (proj1 (reachable_end_game decimal_literal sample_play
                  sample_play_reachable)).
Defined.

Lemma reachable_submit_answer_raises_witness :
  snd (submit_answer_request decimal_literal (JList []) sample_play)
  = Raise AttributeError /\
  game_active (session sample_play) = Some true.
Proof.
  assert (snd (submit_answer_request decimal_literal (JList []) sample_play)
          = Raise AttributeError) as Hraise by reflexivity.
  split; [exact Hraise |].
  destruct (reachable_submit_answer_raises decimal_literal (JList [])
              sample_play AttributeError sample_play_reachable Hraise)
    as [(_ & Hact & _) | [[He _] | [[He | He] _]]];
    [exact Hact | discriminate He ..].
Defined.

(** ** The further properties on sample games *)

Lemma no_current_question_witness :
  let w := fst (start_game {["difficulty" := JStr "expert"]}
                  (sample_world [] [5])) in
  submit_answer_request decimal_literal (JDict [("answer", JStr "3")]) w
  = (w, Return (Failure "Nenhuma pergunta atual")) /\
  submit_answer_request decimal_literal JNull w = (w, Raise AttributeError).
Proof.
  intros w. split.
  - apply (no_current_question decimal_literal
             (JDict [("answer", JStr "3")]) w); reflexivity.
  - apply (no_current_question decimal_literal JNull w); reflexivity.
Defined.

Lemma missing_answer_is_incorrect_witness :
  exists (q' : Question) (w' : World),
    submit_answer decimal_literal ∅ sample_play
    = (w', Return (Submitted false 3 0 (question q') 30 (0 + 1) 0)).
Proof.
  destruct (missing_answer_is_incorrect decimal_literal ∅ sample_play
              sample_pending 0 0 0 1000 "easy"
              (Settings.mk 10 ["+"; "-"] 30))
    as (q' & w' & Hrun & _); try reflexivity.
  - left. apply lookup_empty.
  - exists q', w'. exact Hrun.
Defined.

(** The answer 3.7 to "6 - 3" is accepted. *)
Lemma number_answer_is_truncated_witness :
  exists (q' : Question) (w' : World) (s' c' : Z),
    submit_answer decimal_literal
      {["answer" := JFloat (FFinite (Qmake 37 10))]} sample_play
    = (w', Return (Submitted true 3 s' (question q') 30 (0 + 1) c')).
Proof.
  destruct (number_answer_is_truncated decimal_literal
              {["answer" := JFloat (FFinite (Qmake 37 10))]} sample_play
              sample_pending 0 0 0 1000 "easy"
              (Settings.mk 10 ["+"; "-"] 30) 3)
    as (q' & w' & s' & c' & Hrun & _); try reflexivity.
  - left. exists (Qmake 37 10). split; [apply lookup_singleton_eq |].
    reflexivity.
  - exists q', w', s', c'. exact Hrun.
Defined.

Lemma correct_answer_gain_witness :
  exists s' : Z,
    score (session (fst (submit_answer decimal_literal answer_3 sample_play)))
    = Some s' /\
    0 + 10 <= s' <= 0 + 20.
Proof.
  apply (correct_answer_gain decimal_literal answer_3 sample_play
           sample_pending 0 0 0 1000); try reflexivity.
  vm_compute. discriminate.
Defined.

(** With the clock three seconds behind the start of the question the
    answer is worth at least 23 points. *)
Lemma clock_step_back_gain_witness :
  exists s' : Z,
    score (session (fst (submit_answer decimal_literal answer_3
                           (sample_game [-2999000]))))
    = Some s' /\
    0 + 20 + 3 <= s'.
Proof.
  apply (clock_step_back_gain decimal_literal answer_3
           (sample_game [-2999000]) sample_pending 0 0 0 1000 3);
    try reflexivity; vm_compute; discriminate.
Defined.

Lemma submit_answer_advances_witness :
  exists (q' : Question) (w' : World),
    submit_answer decimal_literal answer_3 sample_play
    = (w', Return (Submitted true 3 11 (question q') 30 (0 + 1) (0 + 1))) /\
    current_question (session w') = Some q' /\
    question_start_time (session w') = Some 17000000.
Proof.
  destruct (submit_answer_advances decimal_literal answer_3 sample_play
              sample_pending 0 0 0 1000 (Some 3) "easy"
              (Settings.mk 10 ["+"; "-"] 30))
    as (q' & w' & _ & Hrun & Hq & _ & Ht & _); try reflexivity.
  exists q', w'. auto.
Defined.
